(** * Context budgeting and continuity state of the Bob runtime

  A shallow embedding of [bob/runtime/context_window.py],
  [bob/runtime/state.py] and [bob/runtime/orchestrator.py], followed by
  the properties of the window-fitting loop, the state store and the
  continuity update that the specification states.

  Conventions of the embedding:
  - a Python [str] is a Rocq [string] whose characters are read as code
    points below 256;
  - a Python [int] is a [Z], a Python [float] a primitive [float];
  - a [dict] with string values is a [gmap string string], a [dict] of
    arbitrary JSON-like values an association list of [pyval];
  - a call that may raise returns an [outcome]. *)

From Stdlib Require Import ZArith String Ascii List Lia.
From Stdlib Require Import PrimFloat SpecFloat FloatOps.
From stdpp Require Import base option list strings gmap.

Local Open Scope string_scope.
Set Warnings "-register-all,-inexact-float".

(** ** Python string methods *)

Module PyStr.

(** [str.isspace] on one character, for code points below 256. *)
Definition isspace (c : ascii) : bool :=
  let n := N_of_ascii c in
  ((9 <=? n) && (n <=? 13) || (28 <=? n) && (n <=? 32)
   || (n =? 133) || (n =? 160))%N.

(** [str.lower] on one character, for code points below 256. *)
Definition lower_char (c : ascii) : ascii :=
  let n := N_of_ascii c in
  if ((65 <=? n) && (n <=? 90)
      || (192 <=? n) && (n <=? 222) && negb (n =? 215))%N
  then ascii_of_N (n + 32) else c.

Fixpoint lower (s : string) : string :=
  match s with
  | EmptyString => EmptyString
  | String c r => String (lower_char c) (lower r)
  end.

Fixpoint lstrip (s : string) : string :=
  match s with
  | EmptyString => EmptyString
  | String c r => if isspace c then lstrip r else s
  end.

Fixpoint rstrip (s : string) : string :=
  match s with
  | EmptyString => EmptyString
  | String c r =>
      match rstrip r with
      | EmptyString => if isspace c then EmptyString else String c EmptyString
      | r' => String c r'
      end
  end.

(** [s.strip()] *)
Definition strip (s : string) : string := rstrip (lstrip s).

(** [s.split()]: the maximal runs of non-whitespace characters; [cur] is
    the run being read, last character first. *)
Fixpoint split_go (cur : string) (s : string) : list string :=
  match s with
  | EmptyString =>
      match cur with EmptyString => [] | _ => [String.rev cur] end
  | String c r =>
      if isspace c then
        match cur with
        | EmptyString => split_go EmptyString r
        | _ => String.rev cur :: split_go EmptyString r
        end
      else split_go (String c cur) r
  end.

Definition split (s : string) : list string := split_go EmptyString s.

(** [sep.join(l)] *)
Fixpoint join (sep : string) (l : list string) : string :=
  match l with
  | [] => EmptyString
  | [x] => x
  | x :: r => x +:+ sep +:+ join sep r
  end.

(** [len(s)] *)
Definition len (s : string) : Z := Z.of_nat (String.length s).

(** [s.endswith(suf)] *)
Definition endswith (s suf : string) : bool :=
  String.prefix (String.rev suf) (String.rev s).

(** [s.find(c)] for a one-character needle: lowest index, or -1. *)
Fixpoint find_char (c : ascii) (s : string) : Z :=
  match s with
  | EmptyString => (-1)%Z
  | String d r =>
      if Ascii.eqb c d then 0%Z
      else let i := find_char c r in
           if (i =? -1)%Z then (-1)%Z else (i + 1)%Z
  end.

(** [s.rfind(c)] for a one-character needle: highest index, or -1. *)
Fixpoint rfind_char (c : ascii) (s : string) : Z :=
  match s with
  | EmptyString => (-1)%Z
  | String d r =>
      let i := rfind_char c r in
      if (i =? -1)%Z then (if Ascii.eqb c d then 0%Z else (-1)%Z)
      else (i + 1)%Z
  end.

(** [s[start:stop]] for [0 <= start], [0 <= stop]. *)
Definition slice (s : string) (start stop : Z) : string :=
  substring (Z.to_nat start) (Z.to_nat (stop - start)) s.

(** The line feed of the f-strings. *)
Definition nl : string := String (ascii_of_N 10) EmptyString.

(** [re.split(r"(?<=[?])\s+", s)]: cut at every maximal run of
    whitespace that directly follows a question mark.  [in_sep] says
    that such a run is being skipped, [after_q] that the previous
    character was a question mark; [cur] is the piece being read, last
    character first. *)
Fixpoint re_split_go (in_sep after_q : bool) (cur : string) (s : string)
  : list string :=
  match s with
  | EmptyString => [String.rev cur]
  | String c r =>
      if isspace c && (in_sep || after_q) then
        if in_sep then re_split_go true false cur r
        else String.rev cur :: re_split_go true false EmptyString r
      else re_split_go false (Ascii.eqb c "?"%char) (String c cur) r
  end.

Definition re_split_after_question (s : string) : list string :=
  re_split_go false false EmptyString s.

End PyStr.

(** ** JSON-like Python values *)

Inductive pyval : Type :=
| PNone
| PBool (b : bool)
| PInt (z : Z)
| PFloat (f : float)
| PStr (s : string)
| PList (l : list pyval)
| PDict (d : list (string * pyval)).

(** [d.get(k)] on a dictionary given by its items. *)
Fixpoint dict_get (d : list (string * pyval)) (k : string) : option pyval :=
  match d with
  | [] => None
  | (k', v) :: r => if String.eqb k k' then Some v else dict_get r k
  end.

(** Truth value of a Python object, as [bool(x)] and [if x] compute it. *)
Definition py_truthy (v : pyval) : bool :=
  match v with
  | PNone => false
  | PBool b => b
  | PInt z => negb (z =? 0)%Z
  | PFloat f => negb (PrimFloat.eqb f 0%float)
  | PStr s => negb (String.eqb s "")
  | PList l => match l with [] => false | _ => true end
  | PDict d => match d with [] => false | _ => true end
  end.

(** ** context_window.py *)

(** A chat message [{"role": ..., "content": ...}]: a dictionary with
    string values; an absent key reads as [None]. *)
Abbreviation message := (gmap string string).

(** [m.get(k) or ""] *)
Definition msg_get (m : message) (k : string) : string :=
  default "" (m !! k).

Record ContextBudget := {
  model_window_tokens : Z;
  summary_target_tokens : Z;
  live_chat_target_tokens : Z;
  reserved_buffer_tokens : Z;
}.

(** The dictionary [count_buckets] returns. *)
Record Metrics := {
  m_system_block : Z;
  m_conversation_summary : Z;
  m_live_chat_buffer : Z;
  m_tool_injections : Z;
  m_reserved_buffer : Z;
  m_current_user_input : Z;
  m_used_without_reserve : Z;
  m_total_with_reserve : Z;
  m_model_window : Z;
  m_pressure : bool;
}.

(** The tokenizer artifact ([tokenizers.Tokenizer.from_file]): [encode]
    gives the ids of a text, [decode] the text of a list of ids. *)
Record Tokenizer := {
  tok_encode : string → list Z;
  tok_decode : list Z → string;
}.

Section ContextWindow.

Variable tok : Tokenizer.

(** [OSS20BTokenizer.count] *)
Definition count (text : string) : Z :=
  Z.of_nat (length (tok_encode tok text)).

(** [OSS20BTokenizer.truncate_to_tokens] *)
Definition truncate_to_tokens (text : string) (max_tokens : Z) : string :=
  if (max_tokens <=? 0)%Z then ""
  else
    let ids := tok_encode tok text in
    if (Z.of_nat (length ids) <=? max_tokens)%Z then text
    else tok_decode tok (take (Z.to_nat max_tokens) ids).

(** One line of [format_live_chat], or nothing for an empty content. *)
Definition format_message (m : message) : option string :=
  let role := PyStr.lower (PyStr.strip (msg_get m "role")) in
  let content := PyStr.strip (msg_get m "content") in
  if String.eqb content "" then None
  else if String.eqb role "assistant" then Some ("Assistant: " +:+ content)
  else Some ("User: " +:+ content).

(** [format_live_chat] *)
Definition format_live_chat (messages : list message) : string :=
  PyStr.join PyStr.nl (omap format_message messages).

(** [keep_last_turns]; [turns or 1] is 1 for [turns = 0]. *)
Definition keep_last_turns (messages : list message) (turns : Z)
  : list message :=
  let n_turns := Z.max 1 (if (turns =? 0)%Z then 1 else turns) in
  let max_messages := (n_turns * 2)%Z in
  if (Z.of_nat (length messages) <=? max_messages)%Z then messages
  else drop (length messages - Z.to_nat max_messages) messages.

Variable budget : ContextBudget.

(** [ContextWindowManager.count_buckets] *)
Definition count_buckets (system_block conversation_summary : string)
    (live_chat_messages : list message)
    (tool_injections current_user_input : string) : Metrics :=
  let summary_block :=
    PyStr.strip ("Conversation Summary (non-authoritative):" +:+ PyStr.nl
                 +:+ PyStr.strip conversation_summary) in
  let live_block := format_live_chat live_chat_messages in
  let user_block :=
    "Current User Input:" +:+ PyStr.nl +:+ PyStr.strip current_user_input in
  let system_tokens := count system_block in
  let summary_tokens := count summary_block in
  let live_chat_tokens := count live_block in
  let tool_tokens := count tool_injections in
  let current_input_tokens := count user_block in
  let reserved_tokens := Z.max 0 (reserved_buffer_tokens budget) in
  let used_without_reserve :=
    (system_tokens + summary_tokens + live_chat_tokens + tool_tokens
     + current_input_tokens)%Z in
  let total_with_reserve := (used_without_reserve + reserved_tokens)%Z in
  let pressure := (model_window_tokens budget <? total_with_reserve)%Z in
  {| m_system_block := system_tokens;
     m_conversation_summary := summary_tokens;
     m_live_chat_buffer := live_chat_tokens;
     m_tool_injections := tool_tokens;
     m_reserved_buffer := reserved_tokens;
     m_current_user_input := current_input_tokens;
     m_used_without_reserve := used_without_reserve;
     m_total_with_reserve := total_with_reserve;
     m_model_window := model_window_tokens budget;
     m_pressure := pressure |}.

(** [ContextWindowManager.fit_live_chat_to_budget], on the value of the
    list: the metrics are computed, and while the list is non-empty and
    under pressure its first element is popped and they are computed
    again. *)
Fixpoint fit_live_chat_to_budget (system_block conversation_summary : string)
    (live_chat_messages : list message)
    (tool_injections current_user_input : string)
  : list message * Metrics :=
  let metrics :=
    count_buckets system_block conversation_summary live_chat_messages
                  tool_injections current_user_input in
  match live_chat_messages with
  | [] => ([], metrics)
  | _ :: rest =>
      if m_pressure metrics
      then fit_live_chat_to_budget system_block conversation_summary rest
                                   tool_injections current_user_input
      else (live_chat_messages, metrics)
  end.

(** [x or y] on strings: [y] when [x] is empty. *)
Definition or_str (x y : string) : string :=
  if String.eqb x "" then y else x.

(** [render_chat_first_prompt] *)
Definition render_chat_first_prompt (conversation_summary : string)
    (live_chat_messages : list message) (current_user_input : string)
    (tool_injections : option string) : string :=
  let blocks :=
    [ "Conversation Summary (non-authoritative):";
      or_str (PyStr.strip conversation_summary) "(none)";
      "";
      "Live Chat (recent turns):";
      or_str (format_live_chat live_chat_messages) "(none)" ] in
  let blocks :=
    match tool_injections with
    | Some t =>
        if negb (String.eqb t "") && negb (String.eqb (PyStr.strip t) "")
        then (blocks ++ [""; PyStr.strip t])%list else blocks
    | None => blocks
    end in
  let blocks :=
    (blocks ++ [""; "Current User Input:";
                PyStr.strip current_user_input])%list in
  PyStr.strip (PyStr.join PyStr.nl blocks).

End ContextWindow.

(** Modelled from the spec: the tokenizer artifact, which is not among
    the sources. The specification takes it as a collaborator that "can
    truncate text to at most N tokens without corrupting encoding"; for
    the code of [truncate_to_tokens], which decodes the first
    [max_tokens] ids, this says that the text decoded from the first [n]
    ids of a longer text has at most [n] tokens. *)
Definition tokenizer_contract (tok : Tokenizer) : Prop :=
  ∀ (text : string) (n : nat),
    (0 < n < length (tok_encode tok text))%nat →
    (length (tok_encode tok (tok_decode tok (take n (tok_encode tok text))))
     ≤ n)%nat.

(** *** The same function on list objects

    A Python list is an object and a variable holds a reference to it.
    [PyHeap] keeps the list objects of a program in a store, so that a
    caller's list and the copy that [fit_live_chat_to_budget] works on are
    different objects of one store. *)

Module PyHeap.

Abbreviation loc := positive.
Abbreviation heap := (gmap loc (list message)).

(** [list(x)]: a new list object with the elements of [x]. *)
Definition list_copy (content : list message) (h : heap) : loc * heap :=
  let l := fresh (dom h) in (l, <[l := content]> h).

(** [msgs.pop(0)]; [None] stands for the [IndexError] of an empty list and
    for a reference to no object. *)
Definition pop0 (msgs : loc) (h : heap) : option heap :=
  match h !! msgs with
  | Some (_ :: rest) => Some (<[msgs := rest]> h)
  | _ => None
  end.

Section Fit.

Variable tok : Tokenizer.
Variable budget : ContextBudget.
Variables system_block conversation_summary : string.
Variables tool_injections current_user_input : string.

Definition count_buckets_at (msgs : loc) (h : heap) : option Metrics :=
  content ← h !! msgs;
  Some (count_buckets tok budget system_block conversation_summary content
                      tool_injections current_user_input).

(** The [while msgs and metrics["pressure"]] loop; [fuel] bounds the number
    of iterations. *)
Fixpoint fit_loop (fuel : nat) (msgs : loc) (metrics : Metrics) (h : heap)
  : option (loc * Metrics * heap) :=
  content ← h !! msgs;
  match content with
  | [] => Some (msgs, metrics, h)
  | _ :: _ =>
      if m_pressure metrics then
        match fuel with
        | O => None
        | S fuel' =>
            h' ← pop0 msgs h;
            metrics' ← count_buckets_at msgs h';
            fit_loop fuel' msgs metrics' h'
        end
      else Some (msgs, metrics, h)
  end.

(** [fit_live_chat_to_budget] called with a reference to the caller's
    list. [live_chat_messages or []] is the caller's list, or a new empty
    list when that one is empty; [list(...)] copies it either way. *)
Definition fit_live_chat_to_budget (live_chat_messages : loc) (h : heap)
  : option (loc * Metrics * heap) :=
  content ← h !! live_chat_messages;
  let '(msgs, h) := list_copy content h in
  metrics ← count_buckets_at msgs h;
  fit_loop (length content) msgs metrics h.

End Fit.

End PyHeap.

(** ** state.py *)

Record IdentityState := {
  system_id : string;
  display_name : string;
  agent_name : string;
  version : string;
  role : string;
  core_directive : string;
  tone_baseline : string;
  tone_active : string;
}.

Record AffectState := {
  curiosity : float;
  calm : float;
  confidence : float;
  tension : float;
  engagement : float;
}.

Record IntegrityState := {
  last_turn_consistent : bool;
  contradictions_detected : bool;
}.

Record BobState := {
  identity : IdentityState;
  affect_state : AffectState;
  integrity : IntegrityState;
  active_context : list string;
  open_threads : list string;
  conversation_summary : string;
  live_chat : list message;
  last_updated_utc : option string;
  turn_counter : Z;
  context_metrics : list (string * pyval);
  last_context_rebuild : option string;
}.

(** The nested dictionary of [BobState.to_dict], which [snapshot] copies. *)
Record ContinuityDict := {
  d_active_context : list string;
  d_open_threads : list string;
  d_conversation_summary : string;
  d_live_chat : list message;
  d_integrity : list (string * pyval);
}.

Record MetaDict := {
  d_last_updated_utc : option string;
  d_turn_counter : Z;
  d_context_metrics : list (string * pyval);
  d_last_context_rebuild : option string;
}.

Record StateDict := {
  d_identity : IdentityState;
  d_affect_state : list (string * pyval);
  d_continuity : ContinuityDict;
  d_meta : MetaDict;
}.

(** [AffectState.to_dict] *)
Definition AffectState_to_dict (a : AffectState) : list (string * pyval) :=
  [ ("curiosity", PFloat (curiosity a));
    ("calm", PFloat (calm a));
    ("confidence", PFloat (confidence a));
    ("tension", PFloat (tension a));
    ("engagement", PFloat (engagement a)) ].

(** [IntegrityState.to_dict] *)
Definition IntegrityState_to_dict (i : IntegrityState)
  : list (string * pyval) :=
  [ ("last_turn_consistent", PBool (last_turn_consistent i));
    ("contradictions_detected", PBool (contradictions_detected i)) ].

(** [BobState.to_dict] *)
Definition BobState_to_dict (s : BobState) : StateDict :=
  {| d_identity := identity s;
     d_affect_state := AffectState_to_dict (affect_state s);
     d_continuity :=
       {| d_active_context := active_context s;
          d_open_threads := open_threads s;
          d_conversation_summary := conversation_summary s;
          d_live_chat := live_chat s;
          d_integrity := IntegrityState_to_dict (integrity s) |};
     d_meta :=
       {| d_last_updated_utc := last_updated_utc s;
          d_turn_counter := turn_counter s;
          d_context_metrics := context_metrics s;
          d_last_context_rebuild := last_context_rebuild s |} |}.

Section State.

(** [float(s)] of a string: the number it spells, [None] when it raises
    [ValueError]. *)
Variable float_of_str : string → option float.

(** [float(z)] of an integer: the nearest float, ties to even; [None] for
    the [OverflowError] of an integer beyond the range of floats. *)
Definition float_of_int (z : Z) : option float :=
  let f := SF2Prim (binary_normalize prec emax z 0 false) in
  if is_infinity f then None else Some f.

(** [float(x)]; [None] when it raises. *)
Definition py_float (x : pyval) : option float :=
  match x with
  | PFloat f => Some f
  | PBool b => Some (if b then 1%float else 0%float)
  | PInt z => float_of_int z
  | PStr s => float_of_str s
  | PNone | PList _ | PDict _ => None
  end.

(** [_clamp01] *)
Definition _clamp01 (x : pyval) (default : float) : float :=
  match py_float x with
  | None => default
  | Some v =>
      if PrimFloat.ltb v 0%float then 0%float
      else if PrimFloat.ltb 1%float v then 1%float
      else v
  end.

(** [obj.get(k)], with [None] for an absent key. *)
Definition get_or_none (obj : list (string * pyval)) (k : string) : pyval :=
  default PNone (dict_get obj k).

(** [AffectState.from_dict] *)
Definition AffectState_from_dict (obj : list (string * pyval)) : AffectState :=
  {| curiosity := _clamp01 (get_or_none obj "curiosity") 0.75%float;
     calm := _clamp01 (get_or_none obj "calm") 0.6%float;
     confidence := _clamp01 (get_or_none obj "confidence") 0.55%float;
     tension := _clamp01 (get_or_none obj "tension") 0.2%float;
     engagement := _clamp01 (get_or_none obj "engagement") 0.65%float |}.

(** [IntegrityState.from_dict] *)
Definition IntegrityState_from_dict (obj : list (string * pyval))
  : IntegrityState :=
  {| last_turn_consistent :=
       py_truthy (default (PBool true) (dict_get obj "last_turn_consistent"));
     contradictions_detected :=
       py_truthy
         (default (PBool false) (dict_get obj "contradictions_detected")) |}.

(** [StateStore]: the state object and the JSON document its file holds. *)
Record StateStore := {
  path : string;
  store_system_id : string;
  store_display_name : string;
  _state : BobState;
  file_json : StateDict;
}.

(** [StateStore.snapshot] *)
Definition snapshot (st : StateStore) : StateDict :=
  BobState_to_dict (_state st).

(** The keyword arguments of [StateStore.commit]; [None] is the default. *)
Record CommitArgs := {
  c_active_context : option (list string);
  c_open_threads : option (list string);
  c_affect_state : option (list (string * pyval));
  c_integrity : option (list (string * pyval));
  c_tone_active : option string;
  c_conversation_summary : option string;
  c_live_chat : option (list message);
  c_context_metrics : option (list (string * pyval));
  c_last_context_rebuild : option string;
}.

Definition set_tone_active (i : IdentityState) (t : string) : IdentityState :=
  {| system_id := system_id i; display_name := display_name i;
     agent_name := agent_name i; version := version i; role := role i;
     core_directive := core_directive i; tone_baseline := tone_baseline i;
     tone_active := t |}.

(** [StateStore._write] *)
Definition _write (st : StateStore) : StateStore :=
  {| path := path st; store_system_id := store_system_id st;
     store_display_name := store_display_name st; _state := _state st;
     file_json := BobState_to_dict (_state st) |}.

(** [StateStore.commit]; [now] is what [now_utc()] returns in it. *)
Definition commit (a : CommitArgs) (now : string) (st : StateStore)
  : StateStore :=
  let s := _state st in
  let s' :=
    {| identity :=
         match c_tone_active a with
         | Some t => set_tone_active (identity s) t
         | None => identity s
         end;
       affect_state :=
         match c_affect_state a with
         | Some d => AffectState_from_dict d
         | None => affect_state s
         end;
       integrity :=
         match c_integrity a with
         | Some d => IntegrityState_from_dict d
         | None => integrity s
         end;
       active_context := default (active_context s) (c_active_context a);
       open_threads := default (open_threads s) (c_open_threads a);
       conversation_summary :=
         default (conversation_summary s) (c_conversation_summary a);
       live_chat := default (live_chat s) (c_live_chat a);
       last_updated_utc := Some now;
       turn_counter := (turn_counter s + 1)%Z;
       context_metrics := default (context_metrics s) (c_context_metrics a);
       last_context_rebuild :=
         match c_last_context_rebuild a with
         | Some t => Some t
         | None => last_context_rebuild s
         end |} in
  _write {| path := path st; store_system_id := store_system_id st;
            store_display_name := store_display_name st; _state := s';
            file_json := file_json st |}.

(** [BobState()] with the identity [_load_or_init] gives it. *)
Definition default_state (sid dname : string) (now : string) : BobState :=
  {| identity :=
       {| system_id := sid; display_name := dname; agent_name := dname;
          version := "v1"; role := "Magic playing homie";
          core_directive :=
            "Maintain coherent reasoning, assist the user, and preserve continuity across turns.";
          tone_baseline := "curious, grounded, lightly irreverent";
          tone_active := "engaged" |};
     affect_state :=
       {| curiosity := 0.75%float; calm := 0.6%float;
          confidence := 0.55%float; tension := 0.2%float;
          engagement := 0.65%float |};
     integrity :=
       {| last_turn_consistent := true; contradictions_detected := false |};
     active_context := [];
     open_threads := [];
     conversation_summary := "";
     live_chat := [];
     last_updated_utc := Some now;
     turn_counter := 0;
     context_metrics := [];
     last_context_rebuild := None |}.

(** [StateStore.__init__] when no file exists at [path]. *)
Definition new_store (p sid dname : string) (now : string) : StateStore :=
  let s := default_state sid dname now in
  {| path := p; store_system_id := sid; store_display_name := dname;
     _state := s; file_json := BobState_to_dict s |}.

(** [IdentityState.to_dict]: a dictionary with string values. *)
Definition IdentityState_to_dict (i : IdentityState) : gmap string string :=
  <["system_id" := system_id i]>
    (<["display_name" := display_name i]>
       (<["agent_name" := agent_name i]>
          (<["version" := version i]>
             (<["role" := role i]>
                (<["core_directive" := core_directive i]>
                   (<["tone_baseline" := tone_baseline i]>
                      (<["tone_active" := tone_active i]> ∅))))))).

(** [IdentityState.from_dict]; [str(obj.get(k) or d)] is the entry at
    [k], or [d] when the entry is absent or empty. *)
Definition IdentityState_from_dict (obj : gmap string string)
  : IdentityState :=
  let sid := or_str (msg_get obj "system_id") "bob" in
  let dname :=
    or_str (msg_get obj "display_name")
           (or_str (msg_get obj "agent_name") "Bob") in
  let aname := or_str (msg_get obj "agent_name") dname in
  {| system_id := sid;
     display_name := dname;
     agent_name := aname;
     version := or_str (msg_get obj "version") "v1";
     role := or_str (msg_get obj "role") "Magic playing homie";
     core_directive :=
       or_str (msg_get obj "core_directive")
         "Maintain coherent reasoning, assist the user, and preserve continuity across turns.";
     tone_baseline :=
       or_str (msg_get obj "tone_baseline")
              "curious, grounded, lightly irreverent";
     tone_active := or_str (msg_get obj "tone_active") "engaged" |}.

(** [BobState.from_dict] on a document of the shape [to_dict] writes: the
    lists, the summary, the counter and the two time stamps are read as
    they stand, the three sub-records through their own [from_dict]. *)
Definition BobState_from_dict (d : StateDict) : BobState :=
  {| identity := IdentityState_from_dict (IdentityState_to_dict (d_identity d));
     affect_state := AffectState_from_dict (d_affect_state d);
     integrity := IntegrityState_from_dict (d_integrity (d_continuity d));
     active_context := d_active_context (d_continuity d);
     open_threads := d_open_threads (d_continuity d);
     conversation_summary := d_conversation_summary (d_continuity d);
     live_chat := d_live_chat (d_continuity d);
     last_updated_utc := d_last_updated_utc (d_meta d);
     turn_counter := d_turn_counter (d_meta d);
     context_metrics := d_context_metrics (d_meta d);
     last_context_rebuild := d_last_context_rebuild (d_meta d) |}.

(** What [StateStore.__init__] finds at [path]. *)
Inductive state_file :=
| NoFile
| Unreadable
| Document (d : StateDict).

(** [StateStore.__init__] with [_load_or_init]: a document is read through
    [BobState.from_dict] and the file is left as it is; with no file, or
    one that cannot be read, the state is the default one and is
    written. *)
Definition open_store (p sid dname : string) (file : state_file)
    (now : string) : StateStore :=
  match file with
  | Document d =>
      {| path := p; store_system_id := sid; store_display_name := dname;
         _state := BobState_from_dict d; file_json := d |}
  | NoFile | Unreadable => new_store p sid dname now
  end.

(** A new process opening the file a store has written. *)
Definition reopen (st : StateStore) (now : string) : StateStore :=
  open_store (path st) (store_system_id st) (store_display_name st)
             (Document (file_json st)) now.

(** [StateStore.commit] called once for each of a list of argument records
    and commit times, in order. *)
Definition commit_all (calls : list (CommitArgs * string)) (st : StateStore)
  : StateStore :=
  foldl (λ st call, commit call.1 call.2 st) st calls.

End State.

(** A float that is neither below 0 nor above 1. *)
Definition within_unit (v : float) : Prop :=
  PrimFloat.ltb v 0%float = false ∧ PrimFloat.ltb 1%float v = false.

Definition affect_within_unit (a : AffectState) : Prop :=
  within_unit (curiosity a) ∧ within_unit (calm a)
  ∧ within_unit (confidence a) ∧ within_unit (tension a)
  ∧ within_unit (engagement a).

(** An identity none of whose fields is empty. *)
Definition identity_filled (i : IdentityState) : Prop :=
  system_id i ≠ "" ∧ display_name i ≠ "" ∧ agent_name i ≠ ""
  ∧ version i ≠ "" ∧ role i ≠ "" ∧ core_directive i ≠ ""
  ∧ tone_baseline i ≠ "" ∧ tone_active i ≠ "".

(** ** orchestrator.py: the continuity update *)

Section Continuity.

(** [json.loads]: [None] when it raises. *)
Variable json_loads : string → option pyval.

(** [_parse_continuity_json] *)
Definition _parse_continuity_json (text : string)
  : option (list (string * pyval)) :=
  if String.eqb text "" then None
  else
    let start := PyStr.find_char "{"%char text in
    let end_ := PyStr.rfind_char "}"%char text in
    if (start =? -1)%Z || (end_ =? -1)%Z || (end_ <=? start)%Z then None
    else
      let snippet := PyStr.slice text start (end_ + 1) in
      match json_loads snippet with
      | Some (PDict obj) => Some obj
      | _ => None
      end.

(** The loop of [_clean_continuity_list]; [out] is the list built so
    far. *)
Fixpoint clean_loop (limit : Z) (out : list string) (value : list pyval)
  : list string :=
  match value with
  | [] => out
  | PStr item :: rest =>
      let text := PyStr.join " " (PyStr.split (PyStr.strip item)) in
      if String.eqb text "" then clean_loop limit out rest
      else
        let text :=
          if (140 <? PyStr.len text)%Z
          then PyStr.slice text 0 137 +:+ "..." else text in
        let out :=
          if bool_decide (text ∈ out) then out else (out ++ [text])%list in
        if (limit <=? Z.of_nat (length out))%Z then out
        else clean_loop limit out rest
  | _ :: rest => clean_loop limit out rest
  end.

(** [_clean_continuity_list] *)
Definition _clean_continuity_list (value : pyval) (limit : Z) : list string :=
  match value with
  | PList items => clean_loop limit [] items
  | _ => []
  end.

(** [_norm] of [_merge_open_threads] *)
Definition _norm (text : string) : string :=
  PyStr.join " " (PyStr.split (PyStr.lower (PyStr.strip text))).

(** The first loop of [_merge_open_threads], over the prior threads. The
    lists hold strings, so [isinstance(t, str)] holds of every entry. *)
Fixpoint merge_prior (resolved_norm : gset string)
    (kept : list string) (seen_norm : gset string) (prior : list string)
  : list string * gset string :=
  match prior with
  | [] => (kept, seen_norm)
  | t :: rest =>
      let nt := _norm t in
      if String.eqb nt "" || bool_decide (nt ∈ resolved_norm)
      then merge_prior resolved_norm kept seen_norm rest
      else if bool_decide (nt ∈ seen_norm)
      then merge_prior resolved_norm kept seen_norm rest
      else merge_prior resolved_norm (kept ++ [t])%list ({[nt]} ∪ seen_norm)
                       rest
  end.

(** The second loop, over the new threads, with its [break]. *)
Fixpoint merge_new (limit : Z) (kept : list string) (seen_norm : gset string)
    (new_threads : list string) : list string :=
  match new_threads with
  | [] => kept
  | t :: rest =>
      let nt := _norm t in
      if String.eqb nt "" || bool_decide (nt ∈ seen_norm)
      then merge_new limit kept seen_norm rest
      else
        let kept := (kept ++ [t])%list in
        let seen_norm := {[nt]} ∪ seen_norm in
        if (Z.max 1 limit <=? Z.of_nat (length kept))%Z then kept
        else merge_new limit kept seen_norm rest
  end.

(** [_merge_open_threads] *)
Definition _merge_open_threads (prior_threads new_threads
    resolved_threads : list string) (limit : Z) : list string :=
  let resolved_norm : gset string := list_to_set (_norm <$> resolved_threads) in
  let '(kept, seen_norm) := merge_prior resolved_norm [] ∅ prior_threads in
  let kept := merge_new limit kept seen_norm new_threads in
  take (Z.to_nat (Z.max 1 limit)) kept.

(** The questions [_fallback_continuity] reads off the user input. *)
Definition fallback_questions (user_input : string) : list string :=
  filter (λ chunk, PyStr.endswith chunk "?" = true)
         (PyStr.strip <$>
            PyStr.re_split_after_question (PyStr.strip user_input)).

(** [for q in ...: if q not in threads: threads.append(q)] *)
Fixpoint append_new (threads : list string) (qs : list string)
  : list string :=
  match qs with
  | [] => threads
  | q :: rest =>
      if bool_decide (q ∈ threads) then append_new threads rest
      else append_new (threads ++ [q])%list rest
  end.

(** [Orchestrator._fallback_continuity] *)
Definition _fallback_continuity (state_before : StateDict)
    (user_input : string) : list string * list string :=
  let active := d_active_context (d_continuity state_before) in
  let threads := d_open_threads (d_continuity state_before) in
  let questions := fallback_questions user_input in
  (active, append_new threads (take 3 questions)).

(** What [_update_continuity] does with the stripped text of the model's
    reply. *)
Definition continuity_of_reply (state_before : StateDict)
    (user_input raw : string) : list string * list string :=
  match _parse_continuity_json raw with
  | None | Some [] => _fallback_continuity state_before user_input
  | Some data =>
      let active :=
        _clean_continuity_list (get_or_none data "active_context") 6 in
      let threads :=
        _clean_continuity_list (get_or_none data "open_threads") 4 in
      let resolved :=
        _clean_continuity_list (get_or_none data "resolved_threads") 4 in
      let threads :=
        _merge_open_threads (d_open_threads (d_continuity state_before))
                            threads resolved 4 in
      match active, threads with
      | [], [] => _fallback_continuity state_before user_input
      | _, _ => (active, threads)
      end
  end.

End Continuity.

(** ** orchestrator.py: the turn *)

(** A raised [Exception]. *)
Inductive pyexn := PyException (msg : string).

(** The result of a call that may raise. *)
Inductive outcome (A : Type) :=
| Returns (a : A)
| Raises (e : pyexn).
Arguments Returns {A} a.
Arguments Raises {A} e.

Record ChatRequest := {
  req_messages : list message;
  req_temperature : float;
  req_max_tokens : Z;
  req_timeout_s : Z;
}.

(** One iteration over a [chat_text_stream] generator: the fragments it
    yields, then its normal end or the exception that ends it. *)
Record StreamRun := {
  fragments : list string;
  stream_raises : option pyexn;
}.

(** The [ChatClient] protocol. A client is an object with a state of its
    own, so a call also gives the client after the call. *)
Class ChatClient (C : Type) := {
  chat_text : C → ChatRequest → outcome string * C;
  chat_text_stream : C → ChatRequest → StreamRun * C;
}.

(** The fields of [BobConfig] the runtime reads. *)
Record BobConfig := {
  model_context_window_tokens : Z;
  cfg_summary_target_tokens : Z;
  cfg_live_chat_target_tokens : Z;
  cfg_reserved_buffer_tokens : Z;
  live_chat_retain_turns_after_rebuild : Z;
}.

(** The budget [ContextWindowManager.from_config] builds. *)
Definition from_config (cfg : BobConfig) : ContextBudget :=
  {| model_window_tokens := model_context_window_tokens cfg;
     summary_target_tokens := cfg_summary_target_tokens cfg;
     live_chat_target_tokens := cfg_live_chat_target_tokens cfg;
     reserved_buffer_tokens := cfg_reserved_buffer_tokens cfg |}.

Record Session := {
  session_id : string;
  s_turn_counter : Z;
  tools_enabled : bool;
  tool_roots : list string;
}.

Record TurnRecord := {
  ts_utc : string;
  tr_session_id : string;
  turn_number : Z;
  tr_user_input : string;
  final_output : string;
  think : string;
  tools : list pyval;
  memory_candidates : list pyval;
  tr_state_before : StateDict;
  tr_state_after : StateDict;
}.

(** Which of the orchestrator's two clients [chat] refers to. *)
Inductive which_llm := LocalLLM | RemoteLLM.

(** [dict(role=..., content=...)] *)
Definition mk_message (r c : string) : message :=
  {[ "role" := r; "content" := c ]}.

(** The dictionary of a [Metrics] record. *)
Definition Metrics_to_py (m : Metrics) : pyval :=
  PDict [ ("system_block", PInt (m_system_block m));
          ("conversation_summary", PInt (m_conversation_summary m));
          ("live_chat_buffer", PInt (m_live_chat_buffer m));
          ("tool_injections", PInt (m_tool_injections m));
          ("reserved_buffer", PInt (m_reserved_buffer m));
          ("current_user_input", PInt (m_current_user_input m));
          ("used_without_reserve", PInt (m_used_without_reserve m));
          ("total_with_reserve", PInt (m_total_with_reserve m));
          ("model_window", PInt (m_model_window m));
          ("pressure", PBool (m_pressure m)) ].

Section Orchestrator.

Context {C : Type} `{ChatClient C}.

Variable tok : Tokenizer.
Variable float_of_str : string → option float.
Variable json_dumps : pyval → string.
Variable json_loads : string → option pyval.
(** The prompt constants of [bob.prompts]. *)
Variables SYSTEM_PROMPT RESPOND_WINDOW_RULES CONTINUITY_UPDATE_PROMPT : string.
(** [now_utc()] at the n-th reading of the clock. *)
Variable clock : nat → string.
Variable cfg : BobConfig.

(** Everything a turn reads and writes: the state store, the audit log,
    the two clients, the session, the clock, and what the generator has
    yielded to its consumer. *)
Record World := {
  w_state : StateStore;
  w_logger : list TurnRecord;
  w_local_llm : C;
  w_remote_llm : C;
  w_session : Session;
  w_ticks : nat;
  w_yielded : list string;
}.

(** Computations that read and write the world and may raise; what was
    written before an exception stays written. *)
Definition M (A : Type) : Type := World → outcome A * World.

Definition ret {A} (a : A) : M A := λ w, (Returns a, w).

Definition bind {A B} (m : M A) (k : A → M B) : M B :=
  λ w, match m w with
       | (Returns a, w') => k a w'
       | (Raises e, w') => (Raises e, w')
       end.

(** [try: m  except Exception: h] *)
Definition try_except {A} (m : M A) (h : M A) : M A :=
  λ w, match m w with
       | (Returns a, w') => (Returns a, w')
       | (Raises _, w') => h w'
       end.

Notation "x <- m ;; k" := (bind m (λ x, k))
  (at level 100, m at next level, right associativity).
Notation "m ;;; k" := (bind m (λ _, k))
  (at level 100, right associativity).

Definition get_llm (chat : which_llm) (w : World) : C :=
  match chat with LocalLLM => w_local_llm w | RemoteLLM => w_remote_llm w end.

Definition set_llm (chat : which_llm) (c : C) (w : World) : World :=
  {| w_state := w_state w; w_logger := w_logger w;
     w_local_llm := match chat with LocalLLM => c | _ => w_local_llm w end;
     w_remote_llm := match chat with RemoteLLM => c | _ => w_remote_llm w end;
     w_session := w_session w; w_ticks := w_ticks w;
     w_yielded := w_yielded w |}.

(** [chat.chat_text(...)] *)
Definition call_chat_text (chat : which_llm) (req : ChatRequest) : M string :=
  λ w, let '(o, c) := chat_text (get_llm chat w) req in (o, set_llm chat c w).

(** [for tok in chat.chat_text_stream(...): out_buf += tok; yield tok]:
    every fragment is yielded and added to the buffer; an exception of the
    stream ends the loop and leaves the generator. *)
Definition stream_loop (chat : which_llm) (req : ChatRequest) : M string :=
  λ w, let '(run, c) := chat_text_stream (get_llm chat w) req in
       let w1 := set_llm chat c w in
       let w2 :=
         {| w_state := w_state w1; w_logger := w_logger w1;
            w_local_llm := w_local_llm w1; w_remote_llm := w_remote_llm w1;
            w_session := w_session w1; w_ticks := w_ticks w1;
            w_yielded := (w_yielded w1 ++ fragments run)%list |} in
       match stream_raises run with
       | Some e => (Raises e, w2)
       | None => (Returns (PyStr.join "" (fragments run)), w2)
       end.

(** [now_utc()] *)
Definition now_utc : M string :=
  λ w, (Returns (clock (w_ticks w)),
        {| w_state := w_state w; w_logger := w_logger w;
           w_local_llm := w_local_llm w; w_remote_llm := w_remote_llm w;
           w_session := w_session w; w_ticks := S (w_ticks w);
           w_yielded := w_yielded w |}).

(** [session.turn_counter += 1; turn_no = session.turn_counter] *)
Definition next_turn_number : M Z :=
  λ w, let s := w_session w in
       let n := (s_turn_counter s + 1)%Z in
       (Returns n,
        {| w_state := w_state w; w_logger := w_logger w;
           w_local_llm := w_local_llm w; w_remote_llm := w_remote_llm w;
           w_session :=
             {| session_id := session_id s; s_turn_counter := n;
                tools_enabled := tools_enabled s;
                tool_roots := tool_roots s |};
           w_ticks := w_ticks w; w_yielded := w_yielded w |}).

(** [self.state.snapshot()] *)
Definition state_snapshot : M StateDict :=
  λ w, (Returns (snapshot (w_state w)), w).

(** [self.state.commit(...)] *)
Definition state_commit (a : CommitArgs) : M unit :=
  now <- now_utc ;;
  λ w, (Returns tt,
        {| w_state := commit float_of_str a now (w_state w);
           w_logger := w_logger w;
           w_local_llm := w_local_llm w; w_remote_llm := w_remote_llm w;
           w_session := w_session w; w_ticks := w_ticks w;
           w_yielded := w_yielded w |}).

(** [self.logger.append(rec.to_dict())] *)
Definition logger_append (rec : TurnRecord) : M unit :=
  λ w, (Returns tt,
        {| w_state := w_state w; w_logger := (w_logger w ++ [rec])%list;
           w_local_llm := w_local_llm w; w_remote_llm := w_remote_llm w;
           w_session := w_session w; w_ticks := w_ticks w;
           w_yielded := w_yielded w |}).

Definition session_id_now : M string :=
  λ w, (Returns (session_id (w_session w)), w).

(** The call [_summary_pass] makes: the payload, and a completion budget
    that leaves the reserve free. *)
Definition summary_request (instruction source_text : string) : ChatRequest :=
  let user_payload :=
    instruction +:+ PyStr.nl +:+ PyStr.nl +:+ "SOURCE:" +:+ PyStr.nl
    +:+ source_text in
  let base :=
    count_buckets tok (from_config cfg) SYSTEM_PROMPT "" [] "" user_payload in
  let available :=
    (model_context_window_tokens cfg - m_used_without_reserve base
     - cfg_reserved_buffer_tokens cfg)%Z in
  let max_tokens :=
    Z.max 256 (Z.min 2000 (if (0 <? available)%Z then available else 256)) in
  {| req_messages :=
       [ mk_message "system" SYSTEM_PROMPT; mk_message "user" user_payload ];
     req_temperature := 0.2%float;
     req_max_tokens := max_tokens;
     req_timeout_s := 120 |}.

(** [Orchestrator._summary_pass] *)
Definition _summary_pass (chat : which_llm) (instruction source_text : string)
  : M string :=
  try_except
    (out <- call_chat_text chat (summary_request instruction source_text) ;;
     ret (PyStr.strip out))
    (ret source_text).

Definition coarse_prompt : string :=
  "Summarize the conversation neutrally. Include: goals discussed, decisions made, constraints, unresolved questions. "
  +:+ "No instructions, no speculation, no memory claims.".

Definition refined_prompt : string :=
  "Refine this into a concise Conversation Summary for continuity. Keep neutral descriptive posture. "
  +:+ "Do not add facts not present.".

(** [Orchestrator._rebuild_summary] *)
Definition _rebuild_summary (chat : which_llm) (prior_summary : string)
    (live_chat : list message) : M string :=
  let transcript :=
    render_chat_first_prompt prior_summary live_chat "" (Some "") in
  coarse <- _summary_pass chat coarse_prompt transcript ;;
  refined <- _summary_pass chat refined_prompt coarse ;;
  let max_summary := Z.max 256 (cfg_summary_target_tokens cfg) in
  ret (truncate_to_tokens tok (PyStr.strip refined) max_summary).

(** The call [_update_continuity] makes. *)
Definition continuity_request (state_before : StateDict)
    (user_input assistant_output : string) : ChatRequest :=
  let payload :=
    PDict [ ("prior_active_context",
             PList (PStr <$> d_active_context (d_continuity state_before)));
            ("prior_open_threads",
             PList (PStr <$> d_open_threads (d_continuity state_before)));
            ("user_input", PStr user_input);
            ("assistant_output", PStr assistant_output);
            ("stm_anchors", PList []) ] in
  let prompt :=
    CONTINUITY_UPDATE_PROMPT +:+ PyStr.nl +:+ PyStr.nl +:+ "INPUTS:"
    +:+ PyStr.nl +:+ json_dumps payload in
  {| req_messages :=
       [ mk_message "system" SYSTEM_PROMPT; mk_message "user" prompt ];
     req_temperature := 0.2%float;
     req_max_tokens := 500;
     req_timeout_s := 60 |}.

(** [Orchestrator._update_continuity] *)
Definition _update_continuity (state_before : StateDict)
    (user_input assistant_output : string) (chat : which_llm)
  : M (list string * list string) :=
  let prior :=
    (d_active_context (d_continuity state_before),
     d_open_threads (d_continuity state_before)) in
  if String.eqb (PyStr.strip assistant_output) "" then ret prior
  else
    r <- try_except
           (raw <- call_chat_text chat
                     (continuity_request state_before user_input
                                         assistant_output) ;;
            ret (Some (PyStr.strip raw)))
           (ret None) ;;
    match r with
    | None => ret prior
    | Some raw =>
        ret (continuity_of_reply json_loads state_before user_input raw)
    end.

(** The part of [run_turn_stream] before the model is asked to respond:
    the snapshot, the rebuild when the window is over its targets, and the
    fit. It gives what the rest of the turn uses. *)
Record Prepared := {
  p_turn_no : Z;
  p_state_before : StateDict;
  p_summary : string;
  p_live_chat : list message;
  p_pre_metrics : Metrics;
  p_fit_metrics : Metrics;
  p_rebuilt : bool;
}.

Definition prepare_turn (user_input : string) (chat : which_llm)
  : M Prepared :=
  turn_no <- next_turn_number ;;
  state_before <- state_snapshot ;;
  let continuity := d_continuity state_before in
  let summary := d_conversation_summary continuity in
  let live_chat := d_live_chat continuity in
  let tool_injections := "" in
  let budget := from_config cfg in
  let pre_metrics :=
    count_buckets tok budget SYSTEM_PROMPT summary live_chat tool_injections
                  user_input in
  rebuilt_summary <-
    (if (cfg_live_chat_target_tokens cfg <? m_live_chat_buffer pre_metrics)%Z
        || m_pressure pre_metrics
     then
       summary' <- _rebuild_summary chat summary live_chat ;;
       ret (summary',
            keep_last_turns live_chat
                            (live_chat_retain_turns_after_rebuild cfg),
            true)
     else ret (summary, live_chat, false)) ;;
  let '(summary, live_chat, rebuilt) := rebuilt_summary in
  let '(live_chat, fit_metrics) :=
    fit_live_chat_to_budget tok budget SYSTEM_PROMPT summary live_chat
                            tool_injections user_input in
  ret {| p_turn_no := turn_no; p_state_before := state_before;
         p_summary := summary; p_live_chat := live_chat;
         p_pre_metrics := pre_metrics; p_fit_metrics := fit_metrics;
         p_rebuilt := rebuilt |}.

(** The request of the response call. *)
Definition respond_request (p : Prepared) (user_input : string)
    (temperature : float) : ChatRequest :=
  let prompt_user :=
    render_chat_first_prompt (p_summary p) (p_live_chat p) user_input
                             (Some "") in
  {| req_messages :=
       [ mk_message "system" SYSTEM_PROMPT;
         mk_message "user"
           (RESPOND_WINDOW_RULES +:+ PyStr.nl +:+ PyStr.nl +:+ prompt_user
            +:+ PyStr.nl +:+ PyStr.nl +:+ "Respond to the user.") ];
     req_temperature := temperature;
     req_max_tokens := 2000;
     req_timeout_s := 180 |}.

(** The part of [run_turn_stream] after the stream is drained. *)
Definition finish_turn (p : Prepared) (user_input out_buf : string)
    (chat : which_llm) : M unit :=
  let summary := p_summary p in
  let state_before := p_state_before p in
  let live_chat_after :=
    (p_live_chat p ++ [ mk_message "user" user_input;
                        mk_message "assistant" (PyStr.strip out_buf) ])%list in
  let post_metrics :=
    count_buckets tok (from_config cfg) SYSTEM_PROMPT summary live_chat_after
                  "" "" in
  continuity <- _update_continuity state_before user_input out_buf chat ;;
  let '(active_context, open_threads) := continuity in
  let context_metrics :=
    [ ("pre", Metrics_to_py (p_pre_metrics p));
      ("fit", Metrics_to_py (p_fit_metrics p));
      ("post", Metrics_to_py post_metrics);
      ("rebuild_triggered", PBool (p_rebuilt p)) ] in
  last_rebuild <-
    (if p_rebuilt p then (t <- now_utc ;; ret (Some t))
     else ret (d_last_context_rebuild (d_meta state_before))) ;;
  state_commit
    {| c_active_context := Some active_context;
       c_open_threads := Some open_threads;
       c_affect_state := None; c_integrity := None; c_tone_active := None;
       c_conversation_summary := Some summary;
       c_live_chat := Some live_chat_after;
       c_context_metrics := Some context_metrics;
       c_last_context_rebuild := last_rebuild |} ;;;
  state_after <- state_snapshot ;;
  ts <- now_utc ;;
  sid <- session_id_now ;;
  logger_append
    {| ts_utc := ts; tr_session_id := sid; turn_number := p_turn_no p;
       tr_user_input := user_input; final_output := PyStr.strip out_buf;
       think := ""; tools := []; memory_candidates := [];
       tr_state_before := state_before; tr_state_after := state_after |}.

(** [Orchestrator.run_turn_stream], iterated to its end by the consumer. *)
Definition run_turn_stream (user_input : string) (temperature : float)
    (use_remote : bool) : M unit :=
  let chat := if use_remote then RemoteLLM else LocalLLM in
  p <- prepare_turn user_input chat ;;
  out_buf <- stream_loop chat (respond_request p user_input temperature) ;;
  finish_turn p user_input out_buf chat.

End Orchestrator.

(** ** testing.py, and the other stand-ins the examples run on *)

Record FakeLLMResponsePlan := {
  plan_think : string;
  plan_respond : string;
}.

(** [FakeLLMResponsePlan()] *)
Definition default_plan : FakeLLMResponsePlan :=
  {| plan_think :=
       "SITUATION:" +:+ PyStr.nl +:+ "- test" +:+ PyStr.nl +:+ PyStr.nl
       +:+ "PLAN:" +:+ PyStr.nl +:+ "- test" +:+ PyStr.nl +:+ PyStr.nl
       +:+ "TOOL REQUESTS:" +:+ PyStr.nl +:+ "- NONE" +:+ PyStr.nl
       +:+ PyStr.nl +:+ "MEMORY CANDIDATES:" +:+ PyStr.nl +:+ "- NONE";
     plan_respond := "Hello from Bob." |}.

Record FakeCall := {
  call_kind : string;
  call_request : ChatRequest;
}.

(** [FakeChatClient]: it records its calls; [chat_text] returns the plan's
    [think] text on both of its branches, [chat_text_stream] yields the
    plan's [respond] text one character at a time. *)
Record FakeChatClient := {
  plan : FakeLLMResponsePlan;
  calls : list FakeCall;
}.

Definition fake_record (kind : string) (req : ChatRequest)
    (c : FakeChatClient) : FakeChatClient :=
  {| plan := plan c;
     calls :=
       (calls c ++ [{| call_kind := kind; call_request := req |}])%list |}.

#[export] Instance FakeChatClient_ChatClient : ChatClient FakeChatClient := {
  chat_text c req :=
    (Returns (plan_think (plan c)), fake_record "chat_text" req c);
  chat_text_stream c req :=
    ({| fragments :=
          (λ ch, String ch EmptyString)
            <$> list_ascii_of_string (plan_respond (plan c));
        stream_raises := None |},
     fake_record "chat_text_stream" req c);
}.

(** A client that gives the same scripted results at every call. *)
Record ScriptedClient := {
  text_result : outcome string;
  stream_result : StreamRun;
}.

#[export] Instance ScriptedClient_ChatClient : ChatClient ScriptedClient := {
  chat_text c _ := (text_result c, c);
  chat_text_stream c _ := (stream_result c, c);
}.

(** A client whose every call fails. *)
Definition failing_client : ScriptedClient :=
  {| text_result := Raises (PyException "timeout");
     stream_result :=
       {| fragments := ["Hel"];
          stream_raises := Some (PyException "connection reset") |} |}.

(** A tokenizer with one token per character: the id is the code point. *)
Definition char_tokenizer : Tokenizer :=
  {| tok_encode s :=
       (λ c, Z.of_N (N_of_ascii c)) <$> list_ascii_of_string s;
     tok_decode ids :=
       string_of_list_ascii ((λ z, ascii_of_N (Z.to_N z)) <$> ids) |}.

Definition test_config : BobConfig :=
  {| model_context_window_tokens := 100000;
     cfg_summary_target_tokens := 20000;
     cfg_live_chat_target_tokens := 50000;
     cfg_reserved_buffer_tokens := 10000;
     live_chat_retain_turns_after_rebuild := 2 |}.

(** A configuration whose window is too small for any prompt. *)
Definition tight_config : BobConfig :=
  {| model_context_window_tokens := 10;
     cfg_summary_target_tokens := 5;
     cfg_live_chat_target_tokens := 5;
     cfg_reserved_buffer_tokens := 0;
     live_chat_retain_turns_after_rebuild := 1 |}.

Definition test_session : Session :=
  {| session_id := "s-1"; s_turn_counter := 0; tools_enabled := false;
     tool_roots := [] |}.

Definition test_clock (n : nat) : string :=
  "2026-01-01T00:00:0" +:+ String (ascii_of_nat (48 + n mod 10)) EmptyString.

(** A string [float] does not parse. *)
Definition no_float_of_str (s : string) : option float := None.

(** A [json.loads] for inputs that are not JSON. *)
Definition json_loads_fails (s : string) : option pyval := None.

Definition json_dumps_stub (v : pyval) : string := "{}".

(** A fresh world: a new state store, an empty log, one client for both
    roles. *)
Definition fresh_world {C : Type} (c : C) : World :=
  {| w_state := new_store "state.json" "bob" "Bob" (test_clock 0);
     w_logger := []; w_local_llm := c; w_remote_llm := c;
     w_session := test_session; w_ticks := 1; w_yielded := [] |}.

(** One turn of the orchestrator on the stand-ins above. *)
Definition test_turn {C : Type} `{ChatClient C} (cfg : BobConfig)
    (user_input : string) : @M C unit :=
  run_turn_stream char_tokenizer no_float_of_str json_dumps_stub
                  json_loads_fails "You are Bob." "Stay in the window."
                  "Update the continuity state." test_clock cfg
                  user_input 0.7%float false.

(** A caller's store with one list object, at location 1. *)
Definition caller_heap : PyHeap.heap :=
  {[ 1%positive := [ mk_message "user" "first";
                     mk_message "assistant" "second";
                     mk_message "user" "third" ] ]}.

(** A store as [StateStore.__init__] leaves it when no file exists. *)
Definition fresh_store : StateStore :=
  new_store "state.json" "bob" "Bob" (test_clock 0).

(** An [affect_state] argument with one trait out of range. *)
Definition eager_affect : list (string * pyval) :=
  [ ("curiosity", PFloat 2%float);
    ("calm", PFloat 0.5%float);
    ("confidence", PFloat 0.5%float);
    ("tension", PFloat 0.25%float);
    ("engagement", PFloat 0.5%float) ].

Definition eager_commit : CommitArgs :=
  {| c_active_context := None; c_open_threads := None;
     c_affect_state := Some eager_affect; c_integrity := None;
     c_tone_active := None; c_conversation_summary := None;
     c_live_chat := None; c_context_metrics := None;
     c_last_context_rebuild := None |}.

(** What the specification says of [commit]: the next snapshot shows each
    argument that was passed as it was passed, every other field as it
    was, the turn counter one higher and the time of the commit. *)
Definition commit_reflects_exactly (float_of_str : string → option float)
    (st : StateStore) (a : CommitArgs) (now : string) : Prop :=
  let before := snapshot st in
  let after := snapshot (commit float_of_str a now st) in
  d_active_context (d_continuity after)
  = default (d_active_context (d_continuity before)) (c_active_context a)
  ∧ d_open_threads (d_continuity after)
    = default (d_open_threads (d_continuity before)) (c_open_threads a)
  ∧ d_affect_state after
    = default (d_affect_state before) (c_affect_state a)
  ∧ d_integrity (d_continuity after)
    = default (d_integrity (d_continuity before)) (c_integrity a)
  ∧ tone_active (d_identity after)
    = default (tone_active (d_identity before)) (c_tone_active a)
  ∧ d_conversation_summary (d_continuity after)
    = default (d_conversation_summary (d_continuity before))
              (c_conversation_summary a)
  ∧ d_live_chat (d_continuity after)
    = default (d_live_chat (d_continuity before)) (c_live_chat a)
  ∧ d_context_metrics (d_meta after)
    = default (d_context_metrics (d_meta before)) (c_context_metrics a)
  ∧ d_last_context_rebuild (d_meta after)
    = match c_last_context_rebuild a with
      | Some t => Some t
      | None => d_last_context_rebuild (d_meta before)
      end
  ∧ d_turn_counter (d_meta after) = (d_turn_counter (d_meta before) + 1)%Z
  ∧ d_last_updated_utc (d_meta after) = Some now.

(** [FakeChatClient()] *)
Definition fake_client : FakeChatClient :=
  {| plan := default_plan; calls := [] |}.

(** A store whose open threads already hold one question. *)
Definition asked_store : StateStore :=
  commit no_float_of_str
    {| c_active_context := Some ["Planning the offsite"];
       c_open_threads := Some ["What time is it?"];
       c_affect_state := None; c_integrity := None; c_tone_active := None;
       c_conversation_summary := None; c_live_chat := None;
       c_context_metrics := None; c_last_context_rebuild := None |}
    (test_clock 1) fresh_store.

(** Two turns on a fresh store with [FakeChatClient], whose reply to the
    continuity update holds no JSON. *)
Definition after_first_turn : World :=
  (test_turn test_config "A? B? C?" (fresh_world fake_client)).2.

Definition after_second_turn : World :=
  (test_turn test_config "D? E? F?" after_first_turn).2.

(** Closes a decidable closed goal by evaluation. *)
Ltac by_evaluation :=
  lazymatch goal with
  | |- ?P =>
      let d := constr:(_ : Decision P) in
      apply (@bool_decide_unpack P d); vm_compute; exact I
  end.




(** * Properties *)

(** ** The window manager *)

Section ContextWindowFacts.

Variable tok : Tokenizer.
Variable budget : ContextBudget.
Variables system_block conversation_summary : string.
Variables tool_injections current_user_input : string.

Local Abbreviation buckets :=
  (count_buckets tok budget system_block conversation_summary).
Local Abbreviation fit :=
  (fit_live_chat_to_budget tok budget system_block conversation_summary).

(** The metrics returned are those of the list returned. *)
Lemma fit_metrics_of_result (live : list message) :
  (fit live tool_injections current_user_input).2
  = buckets (fit live tool_injections current_user_input).1
            tool_injections current_user_input.
Proof.
  induction live as [|m rest IH]; simpl; [done|].
  case_match; [exact IH | done].
Qed.

(** C1. For every budget and every system block, summary, live-chat list,
    tool injections and user input, [fit_live_chat_to_budget] returns a
    suffix of the live-chat list it was given, with the metrics of that
    suffix, and in these metrics the pressure flag is off unless the
    returned list is empty. *)
Theorem fit_live_chat_returns_suffix (live : list message) :
  let '(out, metrics) :=
    fit_live_chat_to_budget tok budget system_block conversation_summary
                            live tool_injections current_user_input in
  out `suffix_of` live
  ∧ metrics = count_buckets tok budget system_block conversation_summary
                            out tool_injections current_user_input
  ∧ (m_pressure metrics = false ∨ out = []).
Proof.
  pose proof (fit_metrics_of_result live) as Hm.
  destruct (fit live tool_injections current_user_input) as [out metrics] eqn:E.
  simpl in Hm. split; [|split; [exact Hm|]].
  - clear Hm. revert out metrics E.
    induction live as [|m rest IH]; simpl; intros out metrics E.
    + by inversion E.
    + case_match.
      * apply suffix_cons_r. by eapply IH.
      * by inversion E.
  - clear Hm. revert out metrics E.
    induction live as [|m rest IH]; simpl; intros out metrics E.
    + inversion E. by right.
    + case_match eqn:P.
      * by eapply IH.
      * inversion E; subst. by left.
Qed.

(** [keep_last_turns] reads a turn count below 1 as 1. *)
Lemma keep_last_turns_drop (messages : list message) (n : Z) :
  keep_last_turns messages n
  = drop (length messages - Z.to_nat (2 * Z.max 1 n)) messages.
Proof.
  unfold keep_last_turns.
  assert (Z.max 1 (if (n =? 0)%Z then 1 else n) = Z.max 1 n) as ->.
  { destruct (Z.eqb_spec n 0); lia. }
  replace (Z.max 1 n * 2)%Z with (2 * Z.max 1 n)%Z by lia.
  destruct (Z.leb_spec (Z.of_nat (length messages)) (2 * Z.max 1 n)); [|done].
  replace (length messages - Z.to_nat (2 * Z.max 1 n)) with 0 by lia.
  done.
Qed.

(** C6, as the code has it. For every message list and every integer [n],
    [keep_last_turns messages n] is the list of the last
    [min (len messages) (2 * max 1 n)] entries of [messages], unchanged
    and in their order: at most [2 * n] entries for [n >= 1], and at most
    two for [n = 0], which is read as 1. *)
Theorem keep_last_turns_last_entries (messages : list message) (n : Z) :
  keep_last_turns messages n
  = drop (length messages - Z.to_nat (2 * Z.max 1 n)) messages
  ∧ keep_last_turns messages n `suffix_of` messages
  ∧ (Z.of_nat (length (keep_last_turns messages n)) ≤ 2 * Z.max 1 n)%Z.
Proof.
  rewrite keep_last_turns_drop. split; [done|]. split.
  - apply suffix_drop.
  - rewrite length_drop. lia.
Qed.

(** C6, as stated, fails for [n = 0]: of a one-message list
    [keep_last_turns] keeps the message, which is more than the last
    [2 * 0] entries. *)
Lemma keep_last_turns_zero_keeps_two :
  ¬ (∀ (messages : list message) (n : Z),
       (0 ≤ n)%Z →
       keep_last_turns messages n `suffix_of` messages
       ∧ (Z.of_nat (length (keep_last_turns messages n)) ≤ 2 * n)%Z).
Proof.
  intros Hall.
  destruct (Hall [mk_message "user" "hello"] 0%Z) as [_ Hlen]; [lia|].
  vm_compute in Hlen. by apply Hlen.
Qed.

(** On list objects: the loop leaves in the working copy what the
    function on values returns, and touches no other object. *)
Lemma fit_loop_spec (fuel : nat) (msgs : PyHeap.loc) (content : list message)
    (h : PyHeap.heap) :
  h !! msgs = Some content →
  (length content ≤ fuel)%nat →
  PyHeap.fit_loop tok budget system_block conversation_summary
                  tool_injections current_user_input fuel msgs
                  (buckets content tool_injections current_user_input) h
  = Some (msgs, (fit content tool_injections current_user_input).2,
          <[msgs := (fit content tool_injections current_user_input).1]> h).
Proof.
  revert fuel h.
  induction content as [|m rest IH]; intros fuel h Hm Hfuel.
  - destruct fuel; simpl; rewrite Hm; simpl; by rewrite insert_id.
  - destruct fuel as [|fuel]; [simpl in Hfuel; lia|].
    cbn [PyHeap.fit_loop]. rewrite Hm. cbn [mbind option_bind].
    cbn [fit_live_chat_to_budget].
    case_match eqn:P.
    + unfold PyHeap.pop0. rewrite Hm. cbn [mbind option_bind].
      unfold PyHeap.count_buckets_at. rewrite lookup_insert_eq.
      cbn [mbind option_bind].
      rewrite (IH fuel (<[msgs:=rest]> h)).
      * by rewrite insert_insert_eq.
      * apply lookup_insert_eq.
      * simpl in Hfuel. lia.
    + simpl. by rewrite insert_id.
Qed.

(** C10. When [fit_live_chat_to_budget] is called with a reference to the
    caller's list, it returns: the call allocates one new list object,
    which is the list returned; the caller's list, like every other
    object of the store, holds after the call the elements it held
    before. *)
Theorem fit_live_chat_leaves_argument (live : PyHeap.loc)
    (content : list message) (h : PyHeap.heap) :
  h !! live = Some content →
  ∃ (msgs : PyHeap.loc) (metrics : Metrics) (h' : PyHeap.heap),
    PyHeap.fit_live_chat_to_budget tok budget system_block
      conversation_summary tool_injections current_user_input live h
    = Some (msgs, metrics, h')
    ∧ h' !! live = Some content
    ∧ msgs ≠ live
    ∧ (∀ l, l ≠ msgs → h' !! l = h !! l)
    ∧ h' !! msgs
      = Some (fit_live_chat_to_budget tok budget system_block
                conversation_summary content tool_injections
                current_user_input).1
    ∧ metrics
      = (fit_live_chat_to_budget tok budget system_block
           conversation_summary content tool_injections
           current_user_input).2.
Proof.
  intros Hlive.
  set (msgs := fresh (dom h)).
  assert (h !! msgs = None) as Hfresh.
  { apply not_elem_of_dom. apply is_fresh. }
  assert (msgs ≠ live) as Hne by congruence.
  exists msgs, (fit content tool_injections current_user_input).2,
    (<[msgs := (fit content tool_injections current_user_input).1]> h).
  split; [|repeat split].
  - unfold PyHeap.fit_live_chat_to_budget. rewrite Hlive.
    cbn [mbind option_bind]. unfold PyHeap.list_copy. fold msgs.
    unfold PyHeap.count_buckets_at. rewrite lookup_insert_eq.
    cbn [mbind option_bind].
    rewrite (fit_loop_spec (length content) msgs content);
      [|apply lookup_insert_eq|done].
    by rewrite insert_insert_eq.
  - by rewrite lookup_insert_ne.
  - done.
  - intros l Hl. by rewrite lookup_insert_ne.
  - apply lookup_insert_eq.
Qed.

End ContextWindowFacts.

(** C10 on a store with one list of three messages and a window of 40
    tokens. *)
Lemma fit_live_chat_leaves_argument_witness :
  ∃ msgs metrics h',
    PyHeap.fit_live_chat_to_budget char_tokenizer
      {| model_window_tokens := 40; summary_target_tokens := 0;
         live_chat_target_tokens := 0; reserved_buffer_tokens := 0 |}
      "" "" "" "" 1%positive caller_heap
    = Some (msgs, metrics, h')
    ∧ h' !! 1%positive
      = Some [ mk_message "user" "first"; mk_message "assistant" "second";
               mk_message "user" "third" ].
Proof.
  destruct (fit_live_chat_leaves_argument char_tokenizer
              {| model_window_tokens := 40; summary_target_tokens := 0;
                 live_chat_target_tokens := 0; reserved_buffer_tokens := 0 |}
              "" "" "" "" 1%positive
              [ mk_message "user" "first"; mk_message "assistant" "second";
                mk_message "user" "third" ] caller_heap)
    as (msgs & metrics & h' & Hrun & Hlive & _).
  - reflexivity.
  - exists msgs, metrics, h'. split; [exact Hrun | exact Hlive].
Defined.

(** ** The state store *)

Section StateFacts.

Variable float_of_str : string → option float.

(** A float between 0 and 1 passes [_clamp01] unchanged. *)
Lemma clamp01_in_range (v default : float) :
  PrimFloat.ltb v 0%float = false →
  PrimFloat.ltb 1%float v = false →
  _clamp01 float_of_str (PFloat v) default = v.
Proof. intros Hlo Hhi. unfold _clamp01. simpl. by rewrite Hlo, Hhi. Qed.

(** C2, as the code has it. After [commit], the next [snapshot] shows:
    each list, string and metrics argument that was passed, as it was
    passed; [affect_state] and [integrity], when passed, as
    [AffectState.from_dict] and [IntegrityState.from_dict] read them
    (every trait converted by [float] and clamped to the interval from 0
    to 1, every flag converted by [bool], the default for what is
    missing); every field that was not passed as it was before; the turn
    counter one higher; the time of the commit as [last_updated_utc]. The
    file holds the same document. *)
Theorem commit_then_snapshot (st : StateStore) (a : CommitArgs)
    (now : string) :
  let before := snapshot st in
  let after := snapshot (commit float_of_str a now st) in
  d_active_context (d_continuity after)
  = default (d_active_context (d_continuity before)) (c_active_context a)
  ∧ d_open_threads (d_continuity after)
    = default (d_open_threads (d_continuity before)) (c_open_threads a)
  ∧ d_affect_state after
    = match c_affect_state a with
      | Some d =>
          AffectState_to_dict (AffectState_from_dict float_of_str d)
      | None => d_affect_state before
      end
  ∧ d_integrity (d_continuity after)
    = match c_integrity a with
      | Some d => IntegrityState_to_dict (IntegrityState_from_dict d)
      | None => d_integrity (d_continuity before)
      end
  ∧ d_identity after
    = match c_tone_active a with
      | Some t => set_tone_active (d_identity before) t
      | None => d_identity before
      end
  ∧ d_conversation_summary (d_continuity after)
    = default (d_conversation_summary (d_continuity before))
              (c_conversation_summary a)
  ∧ d_live_chat (d_continuity after)
    = default (d_live_chat (d_continuity before)) (c_live_chat a)
  ∧ d_context_metrics (d_meta after)
    = default (d_context_metrics (d_meta before)) (c_context_metrics a)
  ∧ d_last_context_rebuild (d_meta after)
    = match c_last_context_rebuild a with
      | Some t => Some t
      | None => d_last_context_rebuild (d_meta before)
      end
  ∧ d_turn_counter (d_meta after) = (d_turn_counter (d_meta before) + 1)%Z
  ∧ d_last_updated_utc (d_meta after) = Some now
  ∧ file_json (commit float_of_str a now st) = after.
Proof.
  destruct a as [ac ot af ig ta cs lc cm lr]; simpl.
  destruct af, ig, ta; repeat split; reflexivity.
Qed.

End StateFacts.

(** Two floats with different [eqb] are different. *)
Lemma float_neq (x y : float) :
  PrimFloat.eqb x x ≠ PrimFloat.eqb x y → x ≠ y.
Proof. intros Hne Heq. apply Hne. by rewrite <- Heq. Qed.

(** C2, as stated, fails: [commit(affect_state={"curiosity": 2.0, ...})]
    on a new store is followed by a snapshot whose curiosity is 1.0, not
    the 2.0 that was passed. *)
Lemma commit_clamps_affect_state :
  ¬ (∀ float_of_str st a now, commit_reflects_exactly float_of_str st a now).
Proof.
  intros Hall.
  destruct (Hall no_float_of_str fresh_store eager_commit "2026-01-01T00:00:05")
    as (_ & _ & Haffect & _).
  vm_compute in Haffect.
  assert (1%float = 2%float) as Heq by congruence.
  revert Heq. apply float_neq. vm_compute. discriminate.
Qed.

(** ** The continuity update *)

(** With nothing resolved, prior threads whose normal forms are non-empty,
    pairwise different and not yet seen are all kept, in order. *)
Lemma merge_prior_keeps_all (prior kept : list string) (seen : gset string) :
  Forall (λ t, _norm t ≠ "") prior →
  NoDup (_norm <$> prior) →
  (∀ t, t ∈ prior → _norm t ∉ seen) →
  (merge_prior ∅ kept seen prior).1 = (kept ++ prior)%list.
Proof.
  revert kept seen.
  induction prior as [|t rest IH]; intros kept seen Hne Hnd Hseen; simpl.
  - by rewrite app_nil_r.
  - apply Forall_cons in Hne as [Ht Hrest].
    rewrite fmap_cons in Hnd. apply NoDup_cons in Hnd as [Hnotin Hnd].
    destruct (String.eqb_spec (_norm t) "") as [|_]; [done|].
    rewrite (bool_decide_eq_false_2 (_norm t ∈ (∅ : gset string)))
      by set_solver.
    rewrite (bool_decide_eq_false_2 (_norm t ∈ seen))
      by (apply Hseen; left).
    simpl. rewrite IH; [by rewrite <- app_assoc|done|done|].
    intros t' Ht'. apply not_elem_of_union. split.
    + intros Heq%elem_of_singleton. apply Hnotin. rewrite <- Heq.
      by apply list_elem_of_fmap_2.
    + apply Hseen. by right.
Qed.

(** The merge never returns more than its limit, read as at least 1. *)
Lemma merge_open_threads_length (prior new resolved : list string)
    (limit : Z) :
  (Z.of_nat (length (_merge_open_threads prior new resolved limit))
   ≤ Z.max 1 limit)%Z.
Proof.
  unfold _merge_open_threads.
  destruct (merge_prior _ _ _ _) as [kept seen].
  rewrite length_take. lia.
Qed.

(** C9, as the code has it. For prior open threads that are at most 4 in
    number and whose normal forms (stripped, lower case, runs of
    whitespace collapsed) are non-empty and pairwise different, the merge
    with no new and no resolved thread returns the prior threads, in
    order. *)
Theorem merge_open_threads_noop (prior : list string) :
  Forall (λ t, _norm t ≠ "") prior →
  (length prior ≤ 4)%nat →
  NoDup (_norm <$> prior) →
  _merge_open_threads prior [] [] 4 = prior.
Proof.
  intros Hne Hlen Hnd. unfold _merge_open_threads. simpl.
  pose proof (merge_prior_keeps_all prior [] ∅ Hne Hnd) as Hkept.
  destruct (merge_prior ∅ [] ∅ prior) as [kept seen]. simpl in *.
  rewrite Hkept by set_solver.
  apply take_ge. lia.
Qed.

(** C9 on two threads. *)
Lemma merge_open_threads_noop_witness :
  _merge_open_threads ["Ship it?"; "Book the room"] [] [] 4
  = ["Ship it?"; "Book the room"].
Proof.
  apply (merge_open_threads_noop ["Ship it?"; "Book the room"]).
  - by_evaluation.
  - by_evaluation.
  - by_evaluation.
Defined.

(** C9, as stated, fails: a prior thread of one space is a non-empty
    string, and the merge drops it. *)
Lemma merge_open_threads_drops_blank :
  ¬ (∀ prior : list string,
       Forall (λ t, t ≠ "") prior →
       (length prior ≤ 4)%nat →
       NoDup (_norm <$> prior) →
       _merge_open_threads prior [] [] 4 = prior).
Proof.
  intros Hall.
  assert (_merge_open_threads [" "] [] [] 4 = [" "]) as Hbad.
  { apply Hall; by_evaluation. }
  vm_compute in Hbad. discriminate.
Qed.

(** [append_new] appends, in order, some of the candidates, none of which
    was in the list. *)
Lemma append_new_spec (qs threads : list string) :
  ∃ added,
    append_new threads qs = (threads ++ added)%list
    ∧ added `sublist_of` qs
    ∧ Forall (λ q, q ∉ threads) added.
Proof.
  revert threads. induction qs as [|q rest IH]; intros threads; simpl.
  - exists []. by rewrite app_nil_r.
  - case_bool_decide as Hq.
    + destruct (IH threads) as (added & -> & Hsub & Hnew).
      exists added. split; [done|]. split; [by apply sublist_cons|done].
    + destruct (IH (threads ++ [q])%list) as (added & -> & Hsub & Hnew).
      exists (q :: added). split; [by rewrite <- app_assoc|].
      split; [by apply sublist_skip|].
      constructor; [done|].
      eapply Forall_impl; [exact Hnew|].
      intros x Hx Hin. apply Hx. apply elem_of_app. by left.
Qed.

(** Two different candidates: each is appended unless the list had it. *)
Lemma append_new_two (threads : list string) (q1 q2 : string) :
  q1 ≠ q2 →
  append_new threads [q1; q2]
  = (threads ++ filter (λ q, q ∉ threads) [q1; q2])%list.
Proof.
  intros Hne. simpl.
  rewrite !filter_cons, filter_nil.
  case_bool_decide as H1; destruct (decide (q1 ∉ threads)) as [H1'|H1'];
    try done.
  - case_bool_decide as H2; destruct (decide (q2 ∉ threads)) as [H2'|H2'];
      try done.
    by rewrite app_nil_r.
  - case_bool_decide as H2; destruct (decide (q2 ∉ threads)) as [H2'|H2'].
    + exfalso. apply elem_of_app in H2 as [H2|H2]; [done|].
      apply list_elem_of_singleton in H2. congruence.
    + done.
    + by rewrite <- app_assoc.
    + exfalso. apply H2. apply elem_of_app. left.
      by destruct (decide (q2 ∈ threads)).
Qed.

(** The fallback keeps the active context and appends at most three
    questions of the user input, none of them already among the
    threads. *)
Lemma fallback_continuity_appends (state_before : StateDict)
    (user_input : string) :
  ∃ added,
    _fallback_continuity state_before user_input
    = (d_active_context (d_continuity state_before),
       (d_open_threads (d_continuity state_before) ++ added)%list)
    ∧ (length added ≤ 3)%nat
    ∧ Forall (λ q, PyStr.endswith q "?" = true
                   ∧ q ∉ d_open_threads (d_continuity state_before)) added.
Proof.
  unfold _fallback_continuity.
  destruct (append_new_spec (take 3 (fallback_questions user_input))
              (d_open_threads (d_continuity state_before)))
    as (added & -> & Hsub & Hnew).
  exists added. split; [done|]. split.
  - apply sublist_length in Hsub. rewrite length_take in Hsub. lia.
  - apply Forall_forall. intros q Hq. split.
    + assert (q ∈ fallback_questions user_input) as Hin.
      { apply (subseteq_take 3). eapply sublist_subseteq; [exact Hsub|done]. }
      unfold fallback_questions in Hin.
      by apply list_elem_of_filter in Hin as [? _].
    + revert q Hq. by apply Forall_forall.
Qed.

(** ** The turn *)

Section OrchestratorFacts.

Context {C : Type} `{ChatClient C}.

Variable tok : Tokenizer.
Variable float_of_str : string → option float.
Variable json_dumps : pyval → string.
Variable json_loads : string → option pyval.
Variables SYSTEM_PROMPT RESPOND_WINDOW_RULES CONTINUITY_UPDATE_PROMPT : string.
Variable clock : nat → string.
Variable cfg : BobConfig.


Lemma set_set_llm (chat : which_llm) (c1 c2 : C) (w : World) :
  set_llm chat c2 (set_llm chat c1 w) = set_llm chat c2 w.
Proof. by destruct chat. Qed.

(** A summary pass returns: the reply stripped, or its input when the
    call raises; it changes nothing but the client it calls. *)
Lemma summary_pass_run (chat : which_llm) (instruction source_text : string)
    (w : World) :
  _summary_pass tok SYSTEM_PROMPT cfg chat instruction source_text w
  = match chat_text (get_llm chat w)
            (summary_request tok SYSTEM_PROMPT cfg instruction source_text)
    with
    | (Returns out, c) => (Returns (PyStr.strip out), set_llm chat c w)
    | (Raises _, c) => (Returns source_text, set_llm chat c w)
    end.
Proof.
  unfold _summary_pass, try_except, bind, call_chat_text, ret.
  by destruct (chat_text _ _) as [[out|e] c].
Qed.

Lemma summary_pass_returns (chat : which_llm)
    (instruction source_text : string) (w : World) :
  ∃ s c,
    _summary_pass tok SYSTEM_PROMPT cfg chat instruction source_text w
    = (Returns s, set_llm chat c w).
Proof.
  rewrite summary_pass_run. destruct (chat_text _ _) as [[out|e] c]; eauto.
Qed.

(** The rebuild returns, and changes nothing but the client it calls. *)
Lemma rebuild_summary_returns (chat : which_llm) (prior_summary : string)
    (live_chat : list message) (w : World) :
  ∃ refined c,
    _rebuild_summary tok SYSTEM_PROMPT cfg chat prior_summary live_chat w
    = (Returns (truncate_to_tokens tok (PyStr.strip refined)
                  (Z.max 256 (cfg_summary_target_tokens cfg))),
       set_llm chat c w).
Proof.
  unfold _rebuild_summary, bind.
  destruct (summary_pass_returns chat coarse_prompt
              (render_chat_first_prompt prior_summary live_chat "" (Some ""))
              w) as (coarse & c1 & ->).
  destruct (summary_pass_returns chat refined_prompt coarse
              (set_llm chat c1 w)) as (refined & c2 & ->).
  rewrite set_set_llm. unfold ret. eauto.
Qed.


Section TokenizerContract.

Hypothesis decode_prefix_fits : tokenizer_contract tok.

Lemma truncate_to_tokens_fits (text : string) (max_tokens : Z) :
  (0 < max_tokens)%Z →
  (count tok (truncate_to_tokens tok text max_tokens) ≤ max_tokens)%Z.
Proof.
  intros Hpos. unfold truncate_to_tokens.
  destruct (Z.leb_spec max_tokens 0) as [|_]; [lia|].
  destruct (Z.leb_spec (Z.of_nat (length (tok_encode tok text))) max_tokens)
    as [Hle|Hgt]; [done|].
  unfold count.
  pose proof (decode_prefix_fits text (Z.to_nat max_tokens)). lia.
Qed.

End TokenizerContract.


(** One step of a computation that returns. *)
Lemma bind_returns {A B : Type} (m : @M C A) (k : A → @M C B)
    (w w' : @World C) (a : A) :
  m w = (Returns a, w') → bind m k w = k a w'.
Proof. intros Hm. unfold bind. by rewrite Hm. Qed.

(** The turn up to the response call returns; it reads the store and
    writes neither the store nor the log, and yields nothing. *)
Lemma prepare_turn_returns (user_input : string) (chat : which_llm)
    (w : @World C) :
  ∃ p w1,
    prepare_turn tok SYSTEM_PROMPT cfg user_input chat w = (Returns p, w1)
    ∧ p_state_before p = snapshot (w_state w)
    ∧ w_state w1 = w_state w
    ∧ w_logger w1 = w_logger w
    ∧ w_yielded w1 = w_yielded w.
Proof.
  unfold prepare_turn.
  erewrite bind_returns by (unfold next_turn_number; reflexivity).
  erewrite bind_returns by (unfold state_snapshot; reflexivity).
  cbv zeta. cbn [w_state].
  set (w0 := {| w_state := w_state w |}).
  case_match.
  - destruct (rebuild_summary_returns chat
                (d_conversation_summary (d_continuity (snapshot (w_state w))))
                (d_live_chat (d_continuity (snapshot (w_state w)))) w0)
      as (refined & c & Hrebuild).
    erewrite bind_returns;
      [|erewrite bind_returns; [|exact Hrebuild]; reflexivity].
    cbv beta iota. case_match. unfold ret.
    eexists _, _. split; [reflexivity|]. by destruct chat.
  - erewrite bind_returns by reflexivity.
    cbv beta iota. case_match. unfold ret.
    eexists _, _. split; [reflexivity|]. done.
Qed.

(** C4. When the response stream raises before it is drained,
    [run_turn_stream] raises the same exception after yielding the
    fragments received; [commit] was not called: the state store is the
    one of the turn's start, its snapshot is the snapshot taken at the
    start, and nothing was added to the audit log. *)
Theorem stream_failure_leaves_state (user_input : string)
    (temperature : float) (use_remote : bool) (w w1 : World) (p : Prepared)
    (run : StreamRun) (c : C) (e : pyexn) :
  let chat := if use_remote then RemoteLLM else LocalLLM in
  prepare_turn tok SYSTEM_PROMPT cfg user_input chat w = (Returns p, w1) →
  chat_text_stream (get_llm chat w1)
    (respond_request SYSTEM_PROMPT RESPOND_WINDOW_RULES p user_input
                     temperature)
  = (run, c) →
  stream_raises run = Some e →
  ∃ w2,
    run_turn_stream tok float_of_str json_dumps json_loads SYSTEM_PROMPT
      RESPOND_WINDOW_RULES CONTINUITY_UPDATE_PROMPT clock cfg user_input
      temperature use_remote w
    = (Raises e, w2)
    ∧ w_state w2 = w_state w
    ∧ snapshot (w_state w2) = p_state_before p
    ∧ w_logger w2 = w_logger w
    ∧ w_yielded w2 = (w_yielded w ++ fragments run)%list.
Proof.
  intros chat Hprep Hstream Hraise.
  destruct (prepare_turn_returns user_input chat w)
    as (p' & w1' & Hprep' & Hsnap & Hstate & Hlog & Hyield).
  rewrite Hprep in Hprep'. inversion Hprep'; subst p' w1'.
  unfold run_turn_stream, bind. fold chat. rewrite Hprep.
  unfold stream_loop. rewrite Hstream, Hraise.
  eexists. split; [done|]. simpl.
  destruct chat; simpl; rewrite ?Hstate, ?Hlog, ?Hyield, ?Hsnap; done.
Qed.

(** C5. When the model's reply to the continuity update holds no JSON
    object that parses (as "no json here" does not) and the user input is
    "What time is it? Also, where are we meeting?", [_update_continuity]
    returns the prior active context and the prior open threads followed
    by those of the two questions that were not among them. For every
    user input the fallback appends at most three entries, each ending
    in a question mark and none already among the prior threads. *)
Theorem fallback_on_unparseable_reply (state_before : StateDict)
    (assistant_output raw : string) (chat : which_llm) (w : World) (c : C) :
  let user_input := "What time is it? Also, where are we meeting?" in
  let prior_active := d_active_context (d_continuity state_before) in
  let prior_threads := d_open_threads (d_continuity state_before) in
  PyStr.strip assistant_output ≠ "" →
  chat_text (get_llm chat w)
    (continuity_request json_dumps SYSTEM_PROMPT CONTINUITY_UPDATE_PROMPT
                        state_before user_input assistant_output)
  = (Returns raw, c) →
  _parse_continuity_json json_loads (PyStr.strip raw) = None →
  _update_continuity json_dumps json_loads SYSTEM_PROMPT
    CONTINUITY_UPDATE_PROMPT state_before user_input assistant_output chat w
  = (Returns
       (prior_active,
        (prior_threads
         ++ filter (λ q, q ∉ prior_threads)
              ["What time is it?"; "Also, where are we meeting?"])%list),
     set_llm chat c w)
  ∧ _parse_continuity_json json_loads "no json here" = None
  ∧ ∀ any_input, ∃ added,
      _fallback_continuity state_before any_input
      = (prior_active, (prior_threads ++ added)%list)
      ∧ (length added ≤ 3)%nat
      ∧ Forall (λ q, PyStr.endswith q "?" = true ∧ q ∉ prior_threads)
               added.
Proof.
  intros user_input prior_active prior_threads Hout Hcall Hparse.
  split; [|split].
  - unfold _update_continuity.
    destruct (String.eqb_spec (PyStr.strip assistant_output) "") as [|_];
      [done|].
    unfold bind, try_except, call_chat_text, ret. rewrite Hcall.
    unfold continuity_of_reply. rewrite Hparse.
    unfold _fallback_continuity. fold prior_active prior_threads.
    replace (take 3 (fallback_questions user_input))
      with ["What time is it?"; "Also, where are we meeting?"]
      by (vm_compute; reflexivity).
    by rewrite append_new_two.
  - reflexivity.
  - intros any_input. apply fallback_continuity_appends.
Qed.

End OrchestratorFacts.

(** ** The properties on the stand-ins *)

(** The one-token-per-character tokenizer keeps the tokenizer contract. *)
Lemma char_tokenizer_contract : tokenizer_contract char_tokenizer.
Proof.
  intros text n _. simpl.
  rewrite length_fmap, list_ascii_of_string_of_list_ascii, length_fmap.
  rewrite length_take. lia.
Qed.



(** C4 on a client whose stream breaks after one fragment, with a window
    so small that the summary is rebuilt first. *)
Lemma stream_failure_leaves_state_witness :
  ∃ w2,
    test_turn tight_config "Where are we meeting?" (fresh_world failing_client)
    = (Raises (PyException "connection reset"), w2)
    ∧ w_state w2 = w_state (fresh_world failing_client)
    ∧ w_logger w2 = []
    ∧ w_yielded w2 = ["Hel"].
Proof.
  edestruct (stream_failure_leaves_state char_tokenizer no_float_of_str
               json_dumps_stub json_loads_fails "You are Bob."
               "Stay in the window." "Update the continuity state."
               test_clock tight_config "Where are we meeting?" 0.7%float false
               (fresh_world failing_client))
    as (w2 & Hrun & Hstate & _ & Hlog & Hyield);
    [vm_compute; reflexivity | reflexivity | reflexivity |].
  exists w2. split; [exact Hrun|]. split; [exact Hstate|].
  split; [exact Hlog | exact Hyield].
Defined.

(** C5 on [FakeChatClient] and a store that already holds the first
    question. *)
Lemma fallback_on_unparseable_reply_witness :
  ∃ w',
    _update_continuity json_dumps_stub json_loads_fails "You are Bob."
      "Update the continuity state." (snapshot asked_store)
      "What time is it? Also, where are we meeting?" "Hello from Bob."
      LocalLLM (fresh_world fake_client)
    = (Returns (["Planning the offsite"],
                ["What time is it?"; "Also, where are we meeting?"]), w').
Proof.
  edestruct (fallback_on_unparseable_reply json_dumps_stub json_loads_fails
               "You are Bob." "Update the continuity state."
               (snapshot asked_store) "Hello from Bob."
               (plan_think default_plan) LocalLLM (fresh_world fake_client))
    as (Hrun & _).
  - vm_compute. discriminate.
  - reflexivity.
  - reflexivity.
  - eexists. rewrite Hrun. reflexivity.
Defined.

(** C7 fails on the code. On a fresh store, two turns whose continuity
    update falls back, with three questions in each user input, commit
    six open threads; the merge of a structured update, in contrast, is
    cut to four ([merge_open_threads_length]). *)
Theorem open_threads_grow_past_four :
  test_turn test_config "A? B? C?" (fresh_world fake_client)
  = (Returns tt, after_first_turn)
  ∧ test_turn test_config "D? E? F?" after_first_turn
    = (Returns tt, after_second_turn)
  ∧ open_threads (_state (w_state after_first_turn)) = ["A?"; "B?"; "C?"]
  ∧ open_threads (_state (w_state after_second_turn))
    = ["A?"; "B?"; "C?"; "D?"; "E?"; "F?"]
  ∧ d_open_threads (d_continuity (file_json (w_state after_second_turn)))
    = ["A?"; "B?"; "C?"; "D?"; "E?"; "F?"]
  ∧ turn_counter (_state (w_state after_second_turn)) = 2%Z.
Proof. split_and!; vm_compute; reflexivity. Qed.

(** * Further properties *)

(** ** The window manager, continued *)

Section ContextWindowMore.

Variable tok : Tokenizer.
Variable budget : ContextBudget.
Variables system_block conversation_summary : string.
Variables tool_injections current_user_input : string.

(** X1. Eviction stops at the first suffix that fits: every suffix of the
    live chat that is longer than the one [fit_live_chat_to_budget]
    returns is under pressure. *)
Theorem fit_live_chat_evicts_least (live : list message) (k : nat) :
  (k < length live
       - length (fit_live_chat_to_budget tok budget system_block
                   conversation_summary live tool_injections
                   current_user_input).1)%nat →
  m_pressure (count_buckets tok budget system_block conversation_summary
                (drop k live) tool_injections current_user_input)
  = true.
Proof.
  revert k. induction live as [|m rest IH]; intros k Hk.
  - simpl in Hk. lia.
  - cbn [fit_live_chat_to_budget] in Hk.
    destruct (m_pressure (count_buckets tok budget system_block
                conversation_summary (m :: rest) tool_injections
                current_user_input)) eqn:P.
    + destruct k as [|k]; [exact P|].
      cbn [drop]. apply IH. cbn [length] in Hk. lia.
    + cbn [fst length] in Hk. lia.
Qed.

(** X2. Fitting is idempotent: fitting the list that
    [fit_live_chat_to_budget] returned gives the same list and the same
    metrics. *)
Theorem fit_live_chat_idempotent (live : list message) :
  fit_live_chat_to_budget tok budget system_block conversation_summary
    (fit_live_chat_to_budget tok budget system_block conversation_summary
       live tool_injections current_user_input).1
    tool_injections current_user_input
  = fit_live_chat_to_budget tok budget system_block conversation_summary
      live tool_injections current_user_input.
Proof.
  induction live as [|m rest IH]; [done|].
  cbn [fit_live_chat_to_budget].
  destruct (m_pressure (count_buckets tok budget system_block
              conversation_summary (m :: rest) tool_injections
              current_user_input)) eqn:P.
  - exact IH.
  - cbn [fst fit_live_chat_to_budget]. by rewrite P.
Qed.

(** The list returned is never longer than the list given. *)
Lemma fit_live_chat_length (live : list message) :
  (length (fit_live_chat_to_budget tok budget system_block
             conversation_summary live tool_injections
             current_user_input).1
   ≤ length live)%nat.
Proof.
  induction live as [|m rest IH]; simpl; [done|].
  case_match; simpl; lia.
Qed.

(** X3. [fit_live_chat_to_budget] returns the whole list exactly when the
    list is empty or not under pressure. *)
Theorem fit_live_chat_unchanged_iff (live : list message) :
  (fit_live_chat_to_budget tok budget system_block conversation_summary
     live tool_injections current_user_input).1 = live
  ↔ live = []
    ∨ m_pressure (count_buckets tok budget system_block
                    conversation_summary live tool_injections
                    current_user_input) = false.
Proof.
  destruct live as [|m rest]; [by split; [left|]|].
  cbn [fit_live_chat_to_budget].
  destruct (m_pressure (count_buckets tok budget system_block
              conversation_summary (m :: rest) tool_injections
              current_user_input)) eqn:P.
  - split.
    + intros Heq. pose proof (fit_live_chat_length rest) as Hlen.
      rewrite Heq in Hlen. simpl in Hlen. lia.
    + intros [?|?]; done.
  - split; [by right|done].
Qed.

(** A message whose content is empty or blank gives no line. *)
Lemma format_live_chat_filter (messages : list message) :
  format_live_chat messages
  = format_live_chat
      (filter (λ m, PyStr.strip (msg_get m "content") ≠ "") messages).
Proof.
  unfold format_live_chat. f_equal.
  induction messages as [|m rest IH]; [done|].
  assert (∀ l, omap format_message (m :: l)
               = match format_message m with
                 | Some line => line :: omap format_message l
                 | None => omap format_message l
                 end) as Hcons by done.
  rewrite filter_cons, Hcons.
  destruct (decide (PyStr.strip (msg_get m "content") ≠ "")) as [Hfull|Hblank].
  - by rewrite Hcons, IH.
  - unfold format_message.
    destruct (String.eqb_spec (PyStr.strip (msg_get m "content")) "");
      [exact IH|done].
Qed.

(** X4. Messages with empty or blank content are invisible to the
    accounting: the live-chat text and all the metrics are those of the
    list without them. *)
Theorem blank_messages_are_not_counted (messages : list message) :
  let shown :=
    filter (λ m, PyStr.strip (msg_get m "content") ≠ "") messages in
  format_live_chat messages = format_live_chat shown
  ∧ count_buckets tok budget system_block conversation_summary messages
                  tool_injections current_user_input
    = count_buckets tok budget system_block conversation_summary shown
                    tool_injections current_user_input.
Proof.
  intros shown. split; [apply format_live_chat_filter|].
  unfold count_buckets. by rewrite (format_live_chat_filter messages).
Qed.

(** X5. Keeping the last turns twice keeps the smaller tail:
    [keep_last_turns (keep_last_turns l m) n] is [keep_last_turns l (min m
    n)]; in particular the function is idempotent. *)
Theorem keep_last_turns_twice (messages : list message) (m n : Z) :
  keep_last_turns (keep_last_turns messages m) n
  = keep_last_turns messages (Z.min m n)
  ∧ keep_last_turns (keep_last_turns messages n) n
    = keep_last_turns messages n.
Proof.
  assert (∀ a b, keep_last_turns (keep_last_turns messages a) b
                 = keep_last_turns messages (Z.min a b)) as Hgen.
  { intros a b. rewrite !keep_last_turns_drop.
    rewrite length_drop, drop_drop. f_equal. lia. }
  split; [apply Hgen|]. rewrite Hgen. by rewrite Z.min_id.
Qed.

(** X6. With a tokenizer that keeps [tokenizer_contract], truncating is
    idempotent: a text already cut to [max_tokens] tokens is returned as
    it is; for [max_tokens <= 0] the result is the empty text. *)
Theorem truncate_to_tokens_idempotent (text : string) (max_tokens : Z) :
  tokenizer_contract tok →
  truncate_to_tokens tok (truncate_to_tokens tok text max_tokens) max_tokens
  = truncate_to_tokens tok text max_tokens
  ∧ ((max_tokens ≤ 0)%Z → truncate_to_tokens tok text max_tokens = "").
Proof.
  intros Hcontract. split.
  - destruct (Z.leb_spec max_tokens 0) as [Hle|Hpos].
    + unfold truncate_to_tokens.
      by destruct (Z.leb_spec max_tokens 0); [|lia].
    + pose proof (truncate_to_tokens_fits tok Hcontract text max_tokens Hpos)
        as Hfit.
      unfold truncate_to_tokens at 1.
      destruct (Z.leb_spec max_tokens 0); [lia|].
      unfold count in Hfit.
      by destruct (Z.leb_spec
                     (Z.of_nat (length (tok_encode tok
                        (truncate_to_tokens tok text max_tokens))))
                     max_tokens); [|lia].
  - intros Hle. unfold truncate_to_tokens.
    by destruct (Z.leb_spec max_tokens 0); [|lia].
Qed.

End ContextWindowMore.

(** X1 on three messages and a window of 80 tokens: two are evicted. *)
Lemma fit_live_chat_evicts_least_witness :
  m_pressure
    (count_buckets char_tokenizer
       {| model_window_tokens := 80; summary_target_tokens := 0;
          live_chat_target_tokens := 0; reserved_buffer_tokens := 0 |}
       "" ""
       (drop 1 [ mk_message "user" "first"; mk_message "assistant" "second";
                 mk_message "user" "third" ])
       "" "")
  = true.
Proof.
  apply (fit_live_chat_evicts_least char_tokenizer
           {| model_window_tokens := 80; summary_target_tokens := 0;
              live_chat_target_tokens := 0; reserved_buffer_tokens := 0 |}
           "" "" "" ""
           [ mk_message "user" "first"; mk_message "assistant" "second";
             mk_message "user" "third" ] 1).
  vm_compute. lia.
Defined.

(** X6 on the one-token-per-character tokenizer. *)
Lemma truncate_to_tokens_idempotent_witness :
  truncate_to_tokens char_tokenizer
    (truncate_to_tokens char_tokenizer "hello world" 5) 5
  = truncate_to_tokens char_tokenizer "hello world" 5
  ∧ ((5 ≤ 0)%Z → truncate_to_tokens char_tokenizer "hello world" 5 = "").
Proof.
  apply (truncate_to_tokens_idempotent char_tokenizer "hello world" 5
           char_tokenizer_contract).
Defined.

(** ** The state store, continued *)

Section StateMore.

Variable float_of_str : string → option float.

(** The result of [_clamp01] is within the unit interval when the default
    is. *)
Lemma clamp01_within_unit (x : pyval) (default : float) :
  within_unit default → within_unit (_clamp01 float_of_str x default).
Proof.
  intros Hdefault. unfold _clamp01.
  destruct (py_float float_of_str x) as [v|]; [|done].
  destruct (PrimFloat.ltb v 0%float) eqn:Hlo; [by split|].
  destruct (PrimFloat.ltb 1%float v) eqn:Hhi; by split.
Qed.

(** X7. Whatever the dictionary holds, [AffectState.from_dict] gives
    traits that are neither below 0 nor above 1: a value out of range is
    clamped, a missing or unconvertible one replaced by its default. *)
Theorem affect_from_dict_within_unit (obj : list (string * pyval)) :
  affect_within_unit (AffectState_from_dict float_of_str obj).
Proof.
  unfold affect_within_unit, AffectState_from_dict; simpl.
  split_and!; apply clamp01_within_unit; by split.
Qed.

(** A default that is not empty wins over nothing. *)
Lemma or_str_filled (x d : string) : d ≠ "" → or_str x d ≠ "".
Proof. unfold or_str. by destruct (String.eqb_spec x ""). Qed.

Lemma or_str_keeps (x d : string) : x ≠ "" → or_str x d = x.
Proof. unfold or_str. by destruct (String.eqb_spec x ""). Qed.

(** X8. [IdentityState.from_dict] never gives an empty field: an entry
    that is absent or empty is replaced by its default (the display name
    by the agent name before "Bob", the agent name by the display
    name). *)
Theorem identity_from_dict_filled (obj : gmap string string) :
  identity_filled (IdentityState_from_dict obj).
Proof.
  unfold identity_filled, IdentityState_from_dict; simpl.
  split_and!; repeat apply or_str_filled; done.
Qed.

Lemma identity_round_trip (i : IdentityState) :
  identity_filled i →
  IdentityState_from_dict (IdentityState_to_dict i) = i.
Proof.
  destruct i as [sid dname aname ver rl cd tb ta].
  intros (Hsid & Hdname & Haname & Hver & Hrl & Hcd & Htb & Hta).
  simpl in *. unfold IdentityState_from_dict.
  repeat match goal with
         | |- context [msg_get ?m ?k] =>
             let v := eval vm_compute in (msg_get m k) in
             change (msg_get m k) with v
         end.
  by rewrite !or_str_keeps.
Qed.

Lemma affect_round_trip (a : AffectState) :
  affect_within_unit a →
  AffectState_from_dict float_of_str (AffectState_to_dict a) = a.
Proof.
  destruct a as [cu ca co te en].
  intros ([? ?] & [? ?] & [? ?] & [? ?] & [? ?]). simpl in *.
  unfold AffectState_from_dict, AffectState_to_dict.
  repeat match goal with
         | |- context [get_or_none ?d ?k] =>
             let v := eval vm_compute in (get_or_none d k) in
             change (get_or_none d k) with v
         end.
  by rewrite !clamp01_in_range.
Qed.

Lemma integrity_round_trip (i : IntegrityState) :
  IntegrityState_from_dict (IntegrityState_to_dict i) = i.
Proof. by destruct i. Qed.

Lemma state_round_trip_holds (s : BobState) :
  identity_filled (identity s) →
  affect_within_unit (affect_state s) →
  BobState_from_dict float_of_str (BobState_to_dict s) = s.
Proof.
  intros Hid Haff. destruct s; simpl in *.
  unfold BobState_from_dict; simpl.
  by rewrite identity_round_trip, affect_round_trip, integrity_round_trip.
Qed.

(** X9. Reading back what was written gives the state again:
    [BobState.from_dict (to_dict s)] is [s] for every state whose identity
    fields are non-empty and whose affect traits are neither below 0 nor
    above 1. *)
Theorem state_round_trip (s : BobState) :
  identity_filled (identity s) →
  affect_within_unit (affect_state s) →
  BobState_from_dict float_of_str (BobState_to_dict s) = s.
Proof. apply state_round_trip_holds. Qed.

(** X10. A process that opens the file right after a commit starts from
    the committed state, and its snapshot is the one the committing
    process saw, when the store had a filled identity and affect traits
    in range and the commit did not set an empty tone; the committed
    state again has a filled identity and traits in range. *)
Theorem reopen_after_commit (st : StateStore) (a : CommitArgs)
    (now later : string) :
  identity_filled (identity (_state st)) →
  affect_within_unit (affect_state (_state st)) →
  c_tone_active a ≠ Some "" →
  let committed := commit float_of_str a now st in
  _state (reopen float_of_str committed later) = _state committed
  ∧ snapshot (reopen float_of_str committed later) = snapshot committed
  ∧ identity_filled (identity (_state committed))
  ∧ affect_within_unit (affect_state (_state committed)).
Proof.
  intros Hid Haff Htone committed.
  assert (identity_filled (identity (_state committed))) as Hid'.
  { subst committed. simpl. destruct (c_tone_active a) as [t|]; [|done].
    destruct Hid as (? & ? & ? & ? & ? & ? & ? & ?).
    unfold identity_filled; simpl. split_and!; try done. congruence. }
  assert (affect_within_unit (affect_state (_state committed))) as Haff'.
  { subst committed. simpl. destruct (c_affect_state a) as [d|]; [|done].
    unfold affect_within_unit, AffectState_from_dict; simpl.
    split_and!; apply clamp01_within_unit; by split. }
  assert (_state (reopen float_of_str committed later) = _state committed)
    as Hstate.
  { unfold reopen, open_store. simpl. by apply state_round_trip_holds. }
  split_and!; try done. unfold snapshot. by rewrite Hstate.
Qed.

(** X11. The turn counter counts the commits: after a sequence of calls of
    [commit] it is higher by their number, and after at least one call
    the file holds the snapshot of the state. *)
Theorem commit_all_counts (calls : list (CommitArgs * string))
    (st : StateStore) :
  turn_counter (_state (commit_all float_of_str calls st))
  = (turn_counter (_state st) + Z.of_nat (length calls))%Z
  ∧ (calls ≠ [] →
     file_json (commit_all float_of_str calls st)
     = snapshot (commit_all float_of_str calls st)).
Proof.
  split.
  - revert st. induction calls as [|[a now] rest IH]; intros st.
    + simpl. lia.
    + unfold commit_all in *. cbn [foldl]. rewrite IH. simpl. lia.
  - intros Hne.
    destruct (exists_last Hne) as (front & [a now] & ->).
    unfold commit_all. by rewrite foldl_snoc.
Qed.

End StateMore.

(** X9 on the default state. *)
Lemma state_round_trip_witness :
  BobState_from_dict no_float_of_str
    (BobState_to_dict (default_state "bob" "Bob" "2026-01-01T00:00:00"))
  = default_state "bob" "Bob" "2026-01-01T00:00:00".
Proof.
  apply (state_round_trip no_float_of_str
           (default_state "bob" "Bob" "2026-01-01T00:00:00")).
  - unfold identity_filled; simpl. split_and!; discriminate.
  - unfold affect_within_unit; simpl. split_and!; by split.
Defined.

(** X10 on a fresh store and a commit that passes an affect state with a
    trait out of range. *)
Lemma reopen_after_commit_witness :
  _state (reopen no_float_of_str
            (commit no_float_of_str eager_commit "2026-01-01T00:00:05"
                    fresh_store)
            "2026-01-01T00:00:09")
  = _state (commit no_float_of_str eager_commit "2026-01-01T00:00:05"
                   fresh_store).
Proof.
  apply (reopen_after_commit no_float_of_str fresh_store eager_commit
           "2026-01-01T00:00:05" "2026-01-01T00:00:09").
  - unfold identity_filled; simpl. split_and!; discriminate.
  - unfold affect_within_unit; simpl. split_and!; by split.
  - discriminate.
Defined.

(** X11 on two commits on a fresh store. *)
Lemma commit_all_counts_witness :
  file_json (commit_all no_float_of_str
               [(eager_commit, "2026-01-01T00:00:05");
                (eager_commit, "2026-01-01T00:00:06")] fresh_store)
  = snapshot (commit_all no_float_of_str
                [(eager_commit, "2026-01-01T00:00:05");
                 (eager_commit, "2026-01-01T00:00:06")] fresh_store).
Proof.
  apply (commit_all_counts no_float_of_str
           [(eager_commit, "2026-01-01T00:00:05");
            (eager_commit, "2026-01-01T00:00:06")] fresh_store).
  discriminate.
Defined.

(** ** The continuity update, continued *)

Lemma string_length_append (s1 s2 : string) :
  String.length (s1 +:+ s2) = (String.length s1 + String.length s2)%nat.
Proof. induction s1 as [|c s1 IH]; simpl; [done|]. by rewrite IH. Qed.

Lemma string_length_prefix (n : nat) (s : string) :
  (n ≤ String.length s)%nat → String.length (substring 0 n s) = n.
Proof.
  revert s. induction n as [|n IH]; intros s Hn.
  - by destruct s.
  - destruct s as [|c s]; simpl in *; [lia|]. rewrite IH; lia.
Qed.

(** An entry of a cleaned list: not empty and at most 140 characters. *)
Lemma cleaned_entry_short (text : string) :
  text ≠ "" →
  let entry :=
    if (140 <? PyStr.len text)%Z
    then PyStr.slice text 0 137 +:+ "..." else text in
  entry ≠ "" ∧ (PyStr.len entry ≤ 140)%Z.
Proof.
  intros Hne entry. subst entry. unfold PyStr.len.
  destruct (Z.ltb_spec 140 (Z.of_nat (String.length text))) as [Hlong|Hshort].
  - assert (String.length (PyStr.slice text 0 137 +:+ "...") = 140%nat)
      as Hlen.
    { rewrite string_length_append. unfold PyStr.slice.
      change (Z.to_nat 0) with 0%nat.
      change (Z.to_nat (137 - 0)) with 137%nat.
      rewrite string_length_prefix by lia. done. }
    split; [|lia].
    intros Hempty. by rewrite Hempty in Hlen.
  - split; [done|lia].
Qed.

Lemma clean_loop_spec (limit : Z) (value : list pyval) (out : list string) :
  NoDup out →
  Forall (λ t, t ≠ "" ∧ (PyStr.len t ≤ 140)%Z) out →
  (Z.of_nat (length out) < Z.max 1 limit)%Z →
  NoDup (clean_loop limit out value)
  ∧ Forall (λ t, t ≠ "" ∧ (PyStr.len t ≤ 140)%Z) (clean_loop limit out value)
  ∧ (Z.of_nat (length (clean_loop limit out value)) ≤ Z.max 1 limit)%Z.
Proof.
  revert out. induction value as [|item rest IH]; intros out Hnd Hall Hlen.
  - simpl. split_and!; [done|done|lia].
  - destruct item as [| | | |item| |]; cbn [clean_loop]; try by apply IH.
    set (text := PyStr.join " " (PyStr.split (PyStr.strip item))).
    destruct (String.eqb_spec text "") as [|Hne]; [by apply IH|].
    destruct (cleaned_entry_short text Hne) as [Hentry Hshort].
    set (entry := if (140 <? PyStr.len text)%Z
                  then PyStr.slice text 0 137 +:+ "..." else text) in *.
    set (out' := if bool_decide (entry ∈ out) then out
                 else (out ++ [entry])%list).
    assert (NoDup out' ∧ Forall (λ t, t ≠ "" ∧ (PyStr.len t ≤ 140)%Z) out'
            ∧ (length out' ≤ S (length out))%nat) as (Hnd' & Hall' & Hlen').
    { subst out'. case_bool_decide as Hin.
      - split_and!; [done|done|lia].
      - split_and!.
        + apply NoDup_app. split_and!; [done| |apply NoDup_singleton].
          intros x Hx ->%list_elem_of_singleton. done.
        + apply Forall_app. split; [done|]. by constructor.
        + rewrite length_app. simpl. lia. }
    destruct (Z.leb_spec limit (Z.of_nat (length out'))) as [Hfull|Hroom].
    + split_and!; [done|done|lia].
    + apply IH; [done|done|lia].
Qed.

(** X12. The list [_clean_continuity_list] returns has no duplicates, no
    empty entry and no entry of more than 140 characters, and at most
    [max(1, limit)] entries; for a value that is not a list it is
    empty. *)
Theorem clean_continuity_list_spec (value : pyval) (limit : Z) :
  NoDup (_clean_continuity_list value limit)
  ∧ Forall (λ t, t ≠ "" ∧ (PyStr.len t ≤ 140)%Z)
           (_clean_continuity_list value limit)
  ∧ (Z.of_nat (length (_clean_continuity_list value limit))
     ≤ Z.max 1 limit)%Z
  ∧ match value with
    | PList _ => True
    | _ => _clean_continuity_list value limit = []
    end.
Proof.
  assert (NoDup ([] : list string)) as Hnil by constructor.
  destruct value; simpl;
    try (split_and!; [done|done|lia|done]).
  destruct (clean_loop_spec limit l [] Hnil) as (? & ? & ?);
    [done|simpl; lia|done].
Qed.

(** The first loop of the merge keeps, in order, prior threads that are
    not resolved; the kept threads stay pairwise different in normal
    form, and none is blank. *)
Lemma merge_prior_spec (resolved : gset string) (prior kept : list string)
    (seen : gset string) :
  (∀ x, x ∈ seen ↔ x ∈ _norm <$> kept) →
  NoDup (_norm <$> kept) →
  Forall (λ t, _norm t ≠ "") kept →
  ∃ kp,
    (merge_prior resolved kept seen prior).1 = (kept ++ kp)%list
    ∧ kp `sublist_of` prior
    ∧ Forall (λ t, _norm t ∉ resolved) kp
    ∧ (∀ x, x ∈ (merge_prior resolved kept seen prior).2
            ↔ x ∈ _norm <$> (kept ++ kp)%list)
    ∧ NoDup (_norm <$> (kept ++ kp)%list)
    ∧ Forall (λ t, _norm t ≠ "") (kept ++ kp)%list.
Proof.
  revert kept seen.
  induction prior as [|t rest IH]; intros kept seen Hseen Hnd Hall.
  - exists []. rewrite app_nil_r. simpl. by split_and!.
  - cbn [merge_prior].
    destruct (String.eqb_spec (_norm t) "") as [Hblank|Hfull]; simpl.
    { destruct (IH kept seen Hseen Hnd Hall) as (kp & ? & ? & ? & ? & ? & ?).
      exists kp. split_and!; try done. by apply sublist_cons. }
    case_bool_decide as Hres; simpl.
    { destruct (IH kept seen Hseen Hnd Hall) as (kp & ? & ? & ? & ? & ? & ?).
      exists kp. split_and!; try done. by apply sublist_cons. }
    case_bool_decide as Hdup.
    { destruct (IH kept seen Hseen Hnd Hall) as (kp & ? & ? & ? & ? & ? & ?).
      exists kp. split_and!; try done. by apply sublist_cons. }
    destruct (IH (kept ++ [t])%list ({[_norm t]} ∪ seen))
      as (kp & Hkept & Hsub & Hres' & Hseen' & Hnd' & Hall').
    + intros x. rewrite fmap_app, elem_of_app, elem_of_union, Hseen. simpl.
      rewrite elem_of_singleton, list_elem_of_singleton. tauto.
    + rewrite fmap_app. apply NoDup_app. split_and!; [done| |].
      * intros x Hx. simpl. rewrite list_elem_of_singleton. intros ->.
        apply Hdup. by apply Hseen.
      * simpl. apply NoDup_singleton.
    + apply Forall_app. split; [done|]. by constructor.
    + exists (t :: kp). rewrite <- app_assoc in *. simpl in *.
      split_and!; try done.
      * by apply sublist_skip.
      * by constructor.
Qed.

(** The second loop appends, in order, new threads. *)
Lemma merge_new_spec (limit : Z) (new kept : list string)
    (seen : gset string) :
  (∀ x, x ∈ seen ↔ x ∈ _norm <$> kept) →
  NoDup (_norm <$> kept) →
  Forall (λ t, _norm t ≠ "") kept →
  ∃ kn,
    merge_new limit kept seen new = (kept ++ kn)%list
    ∧ kn `sublist_of` new
    ∧ NoDup (_norm <$> (kept ++ kn)%list)
    ∧ Forall (λ t, _norm t ≠ "") (kept ++ kn)%list.
Proof.
  revert kept seen.
  induction new as [|t rest IH]; intros kept seen Hseen Hnd Hall.
  - exists []. rewrite app_nil_r. simpl. by split_and!.
  - cbn [merge_new].
    destruct (String.eqb_spec (_norm t) "") as [Hblank|Hfull]; simpl.
    { destruct (IH kept seen Hseen Hnd Hall) as (kn & ? & ? & ? & ?).
      exists kn. split_and!; try done. by apply sublist_cons. }
    case_bool_decide as Hdup.
    { destruct (IH kept seen Hseen Hnd Hall) as (kn & ? & ? & ? & ?).
      exists kn. split_and!; try done. by apply sublist_cons. }
    assert (NoDup (_norm <$> (kept ++ [t])%list)) as Hnd1.
    { rewrite fmap_app. apply NoDup_app. split_and!; [done| |].
      * intros x Hx. simpl. rewrite list_elem_of_singleton. intros ->.
        apply Hdup. by apply Hseen.
      * simpl. apply NoDup_singleton. }
    assert (Forall (λ t, _norm t ≠ "") (kept ++ [t])%list) as Hall1.
    { apply Forall_app. split; [done|]. by constructor. }
    destruct (Z.leb_spec (Z.max 1 limit) (Z.of_nat (length (kept ++ [t])%list))).
    + exists [t]. split_and!; try done.
      apply sublist_skip, sublist_nil_l.
    + destruct (IH (kept ++ [t])%list ({[_norm t]} ∪ seen))
        as (kn & Hkept & Hsub & Hnd' & Hall'); [|done|done|].
      * intros x. rewrite fmap_app, elem_of_app, elem_of_union, Hseen.
        simpl. rewrite elem_of_singleton, list_elem_of_singleton. tauto.
      * exists (t :: kn). rewrite <- app_assoc in *. simpl in *.
        split_and!; try done. by apply sublist_skip.
Qed.

(** X13. The merged open threads: at most [max(1, limit)] entries; taken
    in order from the prior threads and then from the new ones; pairwise
    different after normalisation and none blank; and every entry is a
    new thread or a prior thread that no resolved thread matches. *)
Theorem merge_open_threads_spec (prior new resolved : list string)
    (limit : Z) :
  let merged := _merge_open_threads prior new resolved limit in
  (Z.of_nat (length merged) ≤ Z.max 1 limit)%Z
  ∧ merged `sublist_of` (prior ++ new)%list
  ∧ NoDup (_norm <$> merged)
  ∧ Forall (λ t, _norm t ≠ "") merged
  ∧ ∀ t, t ∈ merged →
         t ∈ new ∨ (t ∈ prior ∧ _norm t ∉ _norm <$> resolved).
Proof.
  intros merged. subst merged. unfold _merge_open_threads.
  set (resolved_norm := list_to_set (_norm <$> resolved) : gset string).
  destruct (merge_prior_spec resolved_norm prior [] ∅)
    as (kp & Hkp & Hsubp & Hres & Hseen & Hndp & Hallp);
    [set_solver|constructor|constructor|].
  destruct (merge_prior resolved_norm [] ∅ prior) as [kept seen].
  simpl in Hkp, Hseen. subst kept.
  destruct (merge_new_spec limit new kp seen Hseen Hndp Hallp)
    as (kn & -> & Hsubn & Hnd & Hall).
  split_and!.
  - rewrite length_take. lia.
  - etrans; [apply sublist_take|]. by apply sublist_app.
  - rewrite fmap_take. eapply sublist_NoDup; [exact Hnd|apply sublist_take].
  - by apply Forall_take.
  - intros t Ht. apply (subseteq_take _ _ t) in Ht.
    apply elem_of_app in Ht as [Ht|Ht].
    + right. split.
      * eapply sublist_subseteq; [exact Hsubp|done].
      * rewrite Forall_forall in Hres. specialize (Hres t Ht).
        subst resolved_norm. by rewrite elem_of_list_to_set in Hres.
    + left. eapply sublist_subseteq; [exact Hsubn|done].
Qed.

Lemma clean_continuity_list_bound (value : pyval) (limit : Z) :
  (Z.of_nat (length (_clean_continuity_list value limit))
   ≤ Z.max 1 limit)%Z.
Proof.
  assert (NoDup ([] : list string)) as Hnil by constructor.
  destruct value; simpl; try lia.
  destruct (clean_loop_spec limit l [] Hnil) as (? & ? & ?);
    [done|simpl; lia|done].
Qed.

Section ParseMore.

Variable json_loads : string → option pyval.

Lemma find_char_absent (c : ascii) (s : string) :
  c ∉ list_ascii_of_string s → PyStr.find_char c s = (-1)%Z.
Proof.
  induction s as [|d r IH]; simpl; [done|]. intros Hnotin.
  destruct (Ascii.eqb_spec c d) as [->|_]; [exfalso; apply Hnotin; left|].
  rewrite IH; [done|]. intros Hin. apply Hnotin. by right.
Qed.

Lemma rfind_char_absent (c : ascii) (s : string) :
  c ∉ list_ascii_of_string s → PyStr.rfind_char c s = (-1)%Z.
Proof.
  induction s as [|d r IH]; simpl; [done|]. intros Hnotin.
  rewrite IH; [|intros Hin; apply Hnotin; by right]. simpl.
  destruct (Ascii.eqb_spec c d) as [->|_]; [exfalso; apply Hnotin; left|done].
Qed.

(** X14. A reply without an opening brace, or without a closing one, is
    never handed to [json.loads]: [_parse_continuity_json] gives [None]
    for it, whatever [json.loads] would do. *)
Theorem parse_continuity_json_needs_braces (text : string) :
  "{"%char ∉ list_ascii_of_string text
  ∨ "}"%char ∉ list_ascii_of_string text →
  _parse_continuity_json json_loads text = None.
Proof.
  intros Hbrace. unfold _parse_continuity_json.
  destruct (String.eqb text ""); [done|].
  destruct Hbrace as [Hopen|Hclose].
  - by rewrite (find_char_absent _ _ Hopen).
  - rewrite (rfind_char_absent _ _ Hclose). simpl.
    by rewrite orb_true_r.
Qed.

(** X15. What [_update_continuity] makes of a reply is either the
    fallback, or a structured update with at most 6 active-context
    entries and at most 4 open threads, not both empty. *)
Theorem continuity_of_reply_bounded (state_before : StateDict)
    (user_input raw : string) :
  let update :=
    continuity_of_reply json_loads state_before user_input raw in
  update = _fallback_continuity state_before user_input
  ∨ ((length update.1 ≤ 6)%nat ∧ (length update.2 ≤ 4)%nat
     ∧ (update.1 ≠ [] ∨ update.2 ≠ [])).
Proof.
  intros update. subst update. unfold continuity_of_reply.
  destruct (_parse_continuity_json json_loads raw) as [[|entry data]|];
    [by left| |by left].
  set (active := _clean_continuity_list _ 6).
  set (threads := _merge_open_threads _ _ _ 4).
  assert ((length active ≤ 6)%nat) as Hactive.
  { subst active.
    pose proof (clean_continuity_list_bound
                  (get_or_none (entry :: data) "active_context") 6). lia. }
  assert ((length threads ≤ 4)%nat) as Hthreads.
  { subst threads.
    pose proof (merge_open_threads_length
                  (d_open_threads (d_continuity state_before))
                  (_clean_continuity_list
                     (get_or_none (entry :: data) "open_threads") 4)
                  (_clean_continuity_list
                     (get_or_none (entry :: data) "resolved_threads") 4) 4).
    lia. }
  destruct active as [|a active'] eqn:Ea;
    destruct threads as [|t threads'] eqn:Et;
    [by left|right..]; simpl in *; split_and!; try lia; auto.
Qed.

End ParseMore.

(** X14 on the reply "no json here". *)
Lemma parse_continuity_json_needs_braces_witness :
  _parse_continuity_json json_loads_fails "no json here" = None.
Proof.
  apply (parse_continuity_json_needs_braces json_loads_fails "no json here").
  left. by_evaluation.
Defined.

(** ** The turn, continued *)

Section OrchestratorMore.

Context {C : Type} `{ChatClient C}.

Variable tok : Tokenizer.
Variable float_of_str : string → option float.
Variable json_dumps : pyval → string.
Variable json_loads : string → option pyval.
Variables SYSTEM_PROMPT RESPOND_WINDOW_RULES CONTINUITY_UPDATE_PROMPT : string.
Variable clock : nat → string.
Variable cfg : BobConfig.

Lemma set_get_llm (chat : which_llm) (w : @World C) :
  set_llm chat (get_llm chat w) w = w.
Proof. by destruct w, chat. Qed.

(** X16. The completion budget of a summary pass is between 256 and 2000
    tokens, whatever the configuration and the text: it is the room the
    window leaves after the prompt and the reserve when that room lies in
    this range. *)
Theorem summary_request_budget (instruction source_text : string) :
  let request :=
    summary_request tok SYSTEM_PROMPT cfg instruction source_text in
  let used :=
    m_used_without_reserve
      (count_buckets tok (from_config cfg) SYSTEM_PROMPT "" [] ""
         (instruction +:+ PyStr.nl +:+ PyStr.nl +:+ "SOURCE:" +:+ PyStr.nl
          +:+ source_text)) in
  let room :=
    (model_context_window_tokens cfg - used
     - cfg_reserved_buffer_tokens cfg)%Z in
  (256 ≤ req_max_tokens request ≤ 2000)%Z
  ∧ req_max_tokens request = Z.max 256 (Z.min 2000 room)
  ∧ req_timeout_s request = 120%Z.
Proof.
  intros request used room. subst request. unfold summary_request.
  cbn [req_max_tokens req_timeout_s]. fold used. fold room.
  destruct (Z.ltb_spec 0 room); split_and!; try done; lia.
Qed.

(** The continuity update returns, and changes nothing but the client it
    may call. *)
Lemma update_continuity_returns (state_before : StateDict)
    (user_input assistant_output : string) (chat : which_llm)
    (w : @World C) :
  ∃ update c,
    _update_continuity json_dumps json_loads SYSTEM_PROMPT
      CONTINUITY_UPDATE_PROMPT state_before user_input assistant_output
      chat w
    = (Returns update, set_llm chat c w).
Proof.
  unfold _update_continuity.
  destruct (String.eqb (PyStr.strip assistant_output) "").
  - exists (d_active_context (d_continuity state_before),
            d_open_threads (d_continuity state_before)), (get_llm chat w).
    by rewrite set_get_llm.
  - unfold bind, try_except, call_chat_text, ret.
    destruct (chat_text _ _) as [[raw|e] c]; eauto.
Qed.

(** X17. [_update_continuity] never raises, whatever the client does, and
    writes neither the state store nor the audit log; it yields nothing
    and leaves the session as it is. *)
Theorem update_continuity_never_raises (state_before : StateDict)
    (user_input assistant_output : string) (chat : which_llm)
    (w : @World C) :
  ∃ update w',
    _update_continuity json_dumps json_loads SYSTEM_PROMPT
      CONTINUITY_UPDATE_PROMPT state_before user_input assistant_output
      chat w
    = (Returns update, w')
    ∧ w_state w' = w_state w
    ∧ w_logger w' = w_logger w
    ∧ w_session w' = w_session w
    ∧ w_yielded w' = w_yielded w.
Proof.
  destruct (update_continuity_returns state_before user_input
              assistant_output chat w) as (update & c & ->).
  exists update, (set_llm chat c w). by destruct chat.
Qed.

(** X18. When the assistant output is empty or blank, or when the call of
    the model raises, [_update_continuity] returns the prior active
    context and the prior open threads as they are: no question of the
    user input is appended. With a blank output the model is not called
    at all. *)
Theorem update_continuity_keeps_prior (state_before : StateDict)
    (user_input assistant_output : string) (chat : which_llm)
    (w : @World C) (e : pyexn) (c : C) :
  PyStr.strip assistant_output = ""
  ∨ chat_text (get_llm chat w)
      (continuity_request json_dumps SYSTEM_PROMPT CONTINUITY_UPDATE_PROMPT
                          state_before user_input assistant_output)
    = (Raises e, c) →
  ∃ w',
    _update_continuity json_dumps json_loads SYSTEM_PROMPT
      CONTINUITY_UPDATE_PROMPT state_before user_input assistant_output
      chat w
    = (Returns (d_active_context (d_continuity state_before),
                d_open_threads (d_continuity state_before)), w')
    ∧ (PyStr.strip assistant_output = "" → w' = w).
Proof.
  intros Hcase. unfold _update_continuity.
  destruct (String.eqb_spec (PyStr.strip assistant_output) "") as [Hblank|Hout].
  - by exists w.
  - destruct Hcase as [?|Hcall]; [done|].
    unfold bind, try_except, call_chat_text, ret. rewrite Hcall.
    by eexists.
Qed.

Lemma fit_live_chat_suffix (budget : ContextBudget)
    (system_block summary tools input : string) (live : list message) :
  (fit_live_chat_to_budget tok budget system_block summary live tools
                           input).1 `suffix_of` live.
Proof.
  induction live as [|m rest IH]; simpl; [done|].
  case_match; [by apply suffix_cons_r|done].
Qed.

Lemma fit_live_chat_clears (budget : ContextBudget)
    (system_block summary tools input : string) (live : list message) :
  m_pressure (fit_live_chat_to_budget tok budget system_block summary live
                tools input).2 = false
  ∨ (fit_live_chat_to_budget tok budget system_block summary live tools
                             input).1 = [].
Proof.
  induction live as [|m rest IH]; simpl; [by right|].
  case_match eqn:P; [exact IH|by left].
Qed.

(** What the turn has done when it reaches the response call. *)
Lemma prepare_turn_run (user_input : string) (chat : which_llm)
    (w : @World C) :
  let stored := _state (w_state w) in
  let pre :=
    count_buckets tok (from_config cfg) SYSTEM_PROMPT
      (conversation_summary stored) (live_chat stored) "" user_input in
  let trigger :=
    (cfg_live_chat_target_tokens cfg <? m_live_chat_buffer pre)%Z
    || m_pressure pre in
  ∃ p w1,
    prepare_turn tok SYSTEM_PROMPT cfg user_input chat w = (Returns p, w1)
    ∧ p_state_before p = snapshot (w_state w)
    ∧ p_turn_no p = (s_turn_counter (w_session w) + 1)%Z
    ∧ w_state w1 = w_state w
    ∧ w_logger w1 = w_logger w
    ∧ w_yielded w1 = w_yielded w
    ∧ s_turn_counter (w_session w1) = (s_turn_counter (w_session w) + 1)%Z
    ∧ session_id (w_session w1) = session_id (w_session w)
    ∧ p_rebuilt p = trigger
    ∧ p_live_chat p `suffix_of` live_chat stored
    ∧ (m_pressure (p_fit_metrics p) = false ∨ p_live_chat p = [])
    ∧ (if trigger
       then (Z.of_nat (length (p_live_chat p))
             ≤ 2 * Z.max 1 (live_chat_retain_turns_after_rebuild cfg))%Z
       else p_summary p = conversation_summary stored).
Proof.
  intros stored pre trigger. unfold prepare_turn.
  erewrite bind_returns by (unfold next_turn_number; reflexivity).
  erewrite bind_returns by (unfold state_snapshot; reflexivity).
  cbv zeta. cbn [w_state].
  change (d_conversation_summary (d_continuity (snapshot (w_state w))))
    with (conversation_summary stored).
  change (d_live_chat (d_continuity (snapshot (w_state w))))
    with (live_chat stored).
  fold pre. fold trigger.
  set (w0 := {| w_state := w_state w |}).
  destruct trigger eqn:Htrigger.
  - destruct (rebuild_summary_returns tok SYSTEM_PROMPT cfg chat
                (conversation_summary stored) (live_chat stored) w0)
      as (refined & c & Hrebuild).
    erewrite bind_returns;
      [|erewrite bind_returns; [|exact Hrebuild]; reflexivity].
    cbv beta iota.
    pose proof (fit_live_chat_suffix (from_config cfg) SYSTEM_PROMPT
                  (truncate_to_tokens tok (PyStr.strip refined)
                     (Z.max 256 (cfg_summary_target_tokens cfg)))
                  "" user_input
                  (keep_last_turns (live_chat stored)
                     (live_chat_retain_turns_after_rebuild cfg))) as Hsuf.
    pose proof (fit_live_chat_clears (from_config cfg) SYSTEM_PROMPT
                  (truncate_to_tokens tok (PyStr.strip refined)
                     (Z.max 256 (cfg_summary_target_tokens cfg)))
                  "" user_input
                  (keep_last_turns (live_chat stored)
                     (live_chat_retain_turns_after_rebuild cfg))) as Hclear.
    destruct (fit_live_chat_to_budget _ _ _ _ _ _ _) as [out metrics].
    unfold ret. eexists _, _. split; [reflexivity|]. simpl in *.
    split_and!; try done; try (by destruct chat).
    + etrans; [exact Hsuf|]. rewrite keep_last_turns_drop. apply suffix_drop.
    + apply suffix_length in Hsuf.
      rewrite keep_last_turns_drop, length_drop in Hsuf. lia.
  - erewrite bind_returns by reflexivity. cbv beta iota.
    pose proof (fit_live_chat_suffix (from_config cfg) SYSTEM_PROMPT
                  (conversation_summary stored) "" user_input
                  (live_chat stored)) as Hsuf.
    pose proof (fit_live_chat_clears (from_config cfg) SYSTEM_PROMPT
                  (conversation_summary stored) "" user_input
                  (live_chat stored)) as Hclear.
    destruct (fit_live_chat_to_budget _ _ _ _ _ _ _) as [out metrics].
    unfold ret. eexists _, _. split; [reflexivity|]. simpl in *.
    by split_and!.
Qed.


(** The arguments of the commit that ends a turn. *)
Lemma finish_turn_run (p : Prepared) (user_input out_buf : string)
    (chat : which_llm) (w : @World C) :
  ∃ active threads rebuild now ts w',
    finish_turn tok float_of_str json_dumps json_loads SYSTEM_PROMPT
      CONTINUITY_UPDATE_PROMPT clock cfg p user_input out_buf chat w
    = (Returns tt, w')
    ∧ w_state w'
      = commit float_of_str
          {| c_active_context := Some active;
             c_open_threads := Some threads;
             c_affect_state := None; c_integrity := None;
             c_tone_active := None;
             c_conversation_summary := Some (p_summary p);
             c_live_chat :=
               Some (p_live_chat p
                     ++ [ mk_message "user" user_input;
                          mk_message "assistant" (PyStr.strip out_buf) ])%list;
             c_context_metrics :=
               Some [ ("pre", Metrics_to_py (p_pre_metrics p));
                      ("fit", Metrics_to_py (p_fit_metrics p));
                      ("post",
                       Metrics_to_py
                         (count_buckets tok (from_config cfg) SYSTEM_PROMPT
                            (p_summary p)
                            (p_live_chat p
                             ++ [ mk_message "user" user_input;
                                  mk_message "assistant"
                                    (PyStr.strip out_buf) ])%list
                            "" ""));
                      ("rebuild_triggered", PBool (p_rebuilt p)) ];
             c_last_context_rebuild := rebuild |}
          now (w_state w)
    ∧ w_logger w'
      = (w_logger w
         ++ [ {| ts_utc := ts; tr_session_id := session_id (w_session w);
                 turn_number := p_turn_no p; tr_user_input := user_input;
                 final_output := PyStr.strip out_buf; think := "";
                 tools := []; memory_candidates := [];
                 tr_state_before := p_state_before p;
                 tr_state_after := snapshot (w_state w') |} ])%list
    ∧ w_session w' = w_session w
    ∧ w_yielded w' = w_yielded w.
Proof.
  unfold finish_turn. cbv zeta.
  destruct (update_continuity_returns (p_state_before p) user_input out_buf
              chat w) as ([active threads] & c & Hupdate).
  erewrite bind_returns by exact Hupdate. cbv beta iota.
  destruct (p_rebuilt p).
  - erewrite bind_returns;
      [|erewrite bind_returns by (unfold now_utc; reflexivity); reflexivity].
    erewrite bind_returns;
      [|unfold state_commit;
        erewrite bind_returns by (unfold now_utc; reflexivity); reflexivity].
    erewrite bind_returns by (unfold state_snapshot; reflexivity).
    erewrite bind_returns by (unfold now_utc; reflexivity).
    erewrite bind_returns by (unfold session_id_now; reflexivity).
    unfold logger_append. eexists _, _, _, _, _, _.
    split; [reflexivity|]. by destruct chat.
  - erewrite bind_returns by reflexivity.
    erewrite bind_returns;
      [|unfold state_commit;
        erewrite bind_returns by (unfold now_utc; reflexivity); reflexivity].
    erewrite bind_returns by (unfold state_snapshot; reflexivity).
    erewrite bind_returns by (unfold now_utc; reflexivity).
    erewrite bind_returns by (unfold session_id_now; reflexivity).
    unfold logger_append. eexists _, _, _, _, _, _.
    split; [reflexivity|]. by destruct chat.
Qed.

(** X20. A turn whose response stream ends normally commits once and logs
    once. The turn returns after yielding the fragments; the state's turn
    counter is one higher; its live chat is the fitted live chat followed
    by the user message and the assistant message (the stripped
    concatenation of the fragments); its summary is the one shown to the
    model; the file holds the new snapshot; and the log has one more
    record, with the snapshots before and after the turn and the
    session's new turn number. *)
Theorem completed_turn_commits_once (user_input : string)
    (temperature : float) (use_remote : bool) (w w1 : @World C)
    (p : Prepared) (run : StreamRun) (c : C) :
  let chat := if use_remote then RemoteLLM else LocalLLM in
  let reply := PyStr.strip (PyStr.join "" (fragments run)) in
  prepare_turn tok SYSTEM_PROMPT cfg user_input chat w = (Returns p, w1) →
  chat_text_stream (get_llm chat w1)
    (respond_request SYSTEM_PROMPT RESPOND_WINDOW_RULES p user_input
                     temperature)
  = (run, c) →
  stream_raises run = None →
  ∃ w2 record,
    run_turn_stream tok float_of_str json_dumps json_loads SYSTEM_PROMPT
      RESPOND_WINDOW_RULES CONTINUITY_UPDATE_PROMPT clock cfg user_input
      temperature use_remote w
    = (Returns tt, w2)
    ∧ w_yielded w2 = (w_yielded w ++ fragments run)%list
    ∧ turn_counter (_state (w_state w2))
      = (turn_counter (_state (w_state w)) + 1)%Z
    ∧ live_chat (_state (w_state w2))
      = (p_live_chat p ++ [ mk_message "user" user_input;
                            mk_message "assistant" reply ])%list
    ∧ conversation_summary (_state (w_state w2)) = p_summary p
    ∧ file_json (w_state w2) = snapshot (w_state w2)
    ∧ w_logger w2 = (w_logger w ++ [record])%list
    ∧ tr_state_before record = snapshot (w_state w)
    ∧ tr_state_after record = snapshot (w_state w2)
    ∧ turn_number record = (s_turn_counter (w_session w) + 1)%Z
    ∧ tr_user_input record = user_input
    ∧ final_output record = reply.
Proof.
  intros chat reply Hprep Hstream Hend.
  destruct (prepare_turn_run user_input chat w)
    as (p' & w1' & Hprep' & Hsnap & Hno & Hstate & Hlog & Hyield & _).
  rewrite Hprep in Hprep'. inversion Hprep'; subst p' w1'.
  unfold run_turn_stream. fold chat.
  erewrite bind_returns by exact Hprep.
  erewrite bind_returns;
    [|unfold stream_loop; rewrite Hstream, Hend; reflexivity].
  set (w1' := {| w_state := w_state (set_llm chat c w1) |}).
  destruct (finish_turn_run p user_input (PyStr.join "" (fragments run)) chat
              w1')
    as (active & threads & rebuild & now & ts & w2 & -> & Hst & Hlg & _ & Hyd).
  eexists w2, _. split; [reflexivity|].
  assert (w_state w1' = w_state w) as Hst1 by (by destruct chat).
  assert (w_logger w1' = w_logger w) as Hlg1 by (by destruct chat).
  rewrite Hst1 in Hst. rewrite Hlg1 in Hlg.
  split_and!.
  - rewrite Hyd. subst w1'. destruct chat; simpl; by rewrite Hyield.
  - by rewrite Hst.
  - by rewrite Hst.
  - by rewrite Hst.
  - by rewrite Hst.
  - exact Hlg.
  - simpl. by rewrite Hsnap.
  - done.
  - simpl. by rewrite Hno.
  - done.
  - done.
Qed.

(** X21. Every call of [run_turn_stream] that is iterated to its end
    raises the session's turn counter by one, also when the response
    stream raises and nothing is committed; the session id stays. *)
Theorem run_turn_stream_counts_session (user_input : string)
    (temperature : float) (use_remote : bool) (w : @World C) :
  let w' :=
    (run_turn_stream tok float_of_str json_dumps json_loads SYSTEM_PROMPT
       RESPOND_WINDOW_RULES CONTINUITY_UPDATE_PROMPT clock cfg user_input
       temperature use_remote w).2 in
  s_turn_counter (w_session w') = (s_turn_counter (w_session w) + 1)%Z
  ∧ session_id (w_session w') = session_id (w_session w).
Proof.
  intros w'. subst w'.
  set (chat := if use_remote then RemoteLLM else LocalLLM).
  destruct (prepare_turn_run user_input chat w)
    as (p & w1 & Hprep & _ & _ & _ & _ & _ & Hcount & Hid & _).
  assert (∃ o w',
            run_turn_stream tok float_of_str json_dumps json_loads
              SYSTEM_PROMPT RESPOND_WINDOW_RULES CONTINUITY_UPDATE_PROMPT
              clock cfg user_input temperature use_remote w
            = (o, w')
            ∧ w_session w' = w_session w1) as (o & w' & -> & Hsession).
  { unfold run_turn_stream. fold chat.
    erewrite bind_returns by exact Hprep.
    unfold bind, stream_loop.
    destruct (chat_text_stream _ _) as [run c].
    destruct (stream_raises run) as [e|].
    - eexists _, _. split; [reflexivity|]. by destruct chat.
    - set (w1' := {| w_state := w_state (set_llm chat c w1) |}).
      destruct (finish_turn_run p user_input (PyStr.join "" (fragments run))
                  chat w1')
        as (? & ? & ? & ? & ? & w2 & -> & _ & _ & Hsession & _).
      eexists _, _. split; [reflexivity|].
      rewrite Hsession. subst w1'. by destruct chat. }
  simpl. by rewrite Hsession.
Qed.

End OrchestratorMore.

(** X18 on a client whose every call raises. *)
Lemma update_continuity_keeps_prior_witness :
  ∃ w',
    _update_continuity json_dumps_stub json_loads_fails "You are Bob."
      "Update the continuity state." (snapshot asked_store)
      "What time is it? Where?" "At noon." LocalLLM
      (fresh_world failing_client)
    = (Returns (["Planning the offsite"], ["What time is it?"]), w').
Proof.
  destruct (update_continuity_keeps_prior json_dumps_stub json_loads_fails
              "You are Bob." "Update the continuity state."
              (snapshot asked_store) "What time is it? Where?" "At noon."
              LocalLLM (fresh_world failing_client)
              (PyException "timeout") failing_client)
    as (w' & Hrun & _).
  - right. reflexivity.
  - exists w'. exact Hrun.
Defined.

(** X20 on [FakeChatClient] and a fresh store. *)
Lemma completed_turn_commits_once_witness :
  ∃ w2,
    test_turn test_config "Where are we meeting?" (fresh_world fake_client)
    = (Returns tt, w2)
    ∧ turn_counter (_state (w_state w2)) = 1%Z
    ∧ live_chat (_state (w_state w2))
      = [ mk_message "user" "Where are we meeting?";
          mk_message "assistant" "Hello from Bob." ]
    ∧ length (w_logger w2) = 1%nat.
Proof.
  edestruct (completed_turn_commits_once char_tokenizer no_float_of_str
               json_dumps_stub json_loads_fails "You are Bob."
               "Stay in the window." "Update the continuity state."
               test_clock test_config "Where are we meeting?" 0.7%float false
               (fresh_world fake_client))
    as (w2 & record & Hrun & _ & Hcount & Hlive & _ & _ & Hlog & _);
    [vm_compute; reflexivity | reflexivity | reflexivity |].
  exists w2. split; [exact Hrun|]. split; [exact Hcount|].
  split; [exact Hlive|]. by rewrite Hlog.
Defined.

(** ** The fallback, continued *)

Lemma chars_rev_app (c : ascii) (s1 s2 : string) :
  c ∈ list_ascii_of_string (String.rev_app s1 s2) →
  c ∈ list_ascii_of_string s1 ∨ c ∈ list_ascii_of_string s2.
Proof.
  revert s2. induction s1 as [|a s1 IH]; intros s2 Hin; simpl in *.
  - by right.
  - apply IH in Hin as [Hin|Hin]; [left; by right|].
    simpl in Hin. apply elem_of_cons in Hin as [->|Hin]; [left; left|by right].
Qed.

Lemma chars_rev (c : ascii) (s : string) :
  c ∈ list_ascii_of_string (String.rev s) → c ∈ list_ascii_of_string s.
Proof.
  intros Hin. apply chars_rev_app in Hin as [Hin|Hin]; [done|].
  by apply elem_of_nil in Hin.
Qed.

Lemma chars_lstrip (c : ascii) (s : string) :
  c ∈ list_ascii_of_string (PyStr.lstrip s) → c ∈ list_ascii_of_string s.
Proof.
  induction s as [|a s IH]; simpl; [done|].
  destruct (PyStr.isspace a); [|done]. intros Hin. right. by apply IH.
Qed.

Lemma chars_rstrip (c : ascii) (s : string) :
  c ∈ list_ascii_of_string (PyStr.rstrip s) → c ∈ list_ascii_of_string s.
Proof.
  induction s as [|a s IH]; simpl; [done|].
  destruct (PyStr.rstrip s) as [|b r] eqn:Hr.
  - destruct (PyStr.isspace a); simpl; [by intros ?%elem_of_nil|].
    intros Hin. apply elem_of_cons in Hin as [->|Hin]; [left|].
    by apply elem_of_nil in Hin.
  - simpl. intros Hin. apply elem_of_cons in Hin as [->|Hin]; [left|].
    right. by apply IH.
Qed.

Lemma chars_strip (c : ascii) (s : string) :
  c ∈ list_ascii_of_string (PyStr.strip s) → c ∈ list_ascii_of_string s.
Proof. intros Hin. by apply chars_lstrip, chars_rstrip. Qed.

(** The pieces of the split are made of characters of the text. *)
Lemma chars_re_split (s : string) (in_sep after_q : bool) (cur piece : string)
    (c : ascii) :
  piece ∈ PyStr.re_split_go in_sep after_q cur s →
  c ∈ list_ascii_of_string piece →
  c ∈ list_ascii_of_string cur ∨ c ∈ list_ascii_of_string s.
Proof.
  revert in_sep after_q cur.
  induction s as [|a s IH]; intros in_sep after_q cur Hpiece Hc; simpl in *.
  - apply list_elem_of_singleton in Hpiece as ->. left. by apply chars_rev.
  - destruct (PyStr.isspace a && (in_sep || after_q)).
    + destruct in_sep.
      * apply IH in Hpiece as [?|?]; [by left|right; by right|done].
      * apply elem_of_cons in Hpiece as [->|Hpiece].
        -- left. by apply chars_rev.
        -- apply IH in Hpiece as [Hin|?]; [|right; by right|done].
           by apply elem_of_nil in Hin.
    + apply IH in Hpiece as [Hin|?]; [|right; by right|done].
      simpl in Hin. apply elem_of_cons in Hin as [->|?];
        [right; left|by left].
Qed.

Lemma endswith_question_has_question (s : string) :
  PyStr.endswith s "?" = true → "?"%char ∈ list_ascii_of_string s.
Proof.
  unfold PyStr.endswith. intros Hprefix. apply chars_rev.
  change (String.rev "?") with "?" in Hprefix.
  destruct (String.rev s) as [|a r]; [done|].
  cbn [String.prefix] in Hprefix.
  destruct (ascii_dec "?" a) as [<-|]; [simpl; left|done].
Qed.

(** X22. A user input without a question mark gives the fallback nothing
    to append: [_fallback_continuity] returns the prior active context
    and the prior open threads as they are. *)
Theorem fallback_without_question (state_before : StateDict)
    (user_input : string) :
  "?"%char ∉ list_ascii_of_string user_input →
  _fallback_continuity state_before user_input
  = (d_active_context (d_continuity state_before),
     d_open_threads (d_continuity state_before)).
Proof.
  intros Hnone. unfold _fallback_continuity.
  assert (fallback_questions user_input = []) as ->; [|done].
  unfold fallback_questions.
  destruct (filter _ _) as [|q qs] eqn:Hfilter; [done|]. exfalso.
  assert (q ∈ q :: qs) as Hq by left.
  rewrite <- Hfilter in Hq.
  apply list_elem_of_filter in Hq as [Hend Hq].
  apply list_elem_of_fmap in Hq as (piece & -> & Hpiece).
  apply endswith_question_has_question, chars_strip in Hend.
  unfold PyStr.re_split_after_question in Hpiece.
  destruct (chars_re_split _ _ _ _ _ _ Hpiece Hend) as [Hin|Hin].
  - by apply elem_of_nil in Hin.
  - by apply Hnone, chars_strip.
Qed.

(** X22 on a request that asks nothing. *)
Lemma fallback_without_question_witness :
  _fallback_continuity (snapshot asked_store) "Tell me a joke."
  = (["Planning the offsite"], ["What time is it?"]).
Proof.
  apply (fallback_without_question (snapshot asked_store) "Tell me a joke.").
  by_evaluation.
Defined.
